(** * The report generator of capa-report-generator

    A shallow embedding of the generic report renderer (the utility that turns
    an arbitrary JSON value into an HTML document) and of the code-fence
    stripping step of the CAPA generator component, with the properties of
    the specification stated and settled against them.

    Conventions of the embedding.
    - A JavaScript string is a Rocq [string], read as the UTF-8 bytes of
      the text.  The case mappings, the character class [A-Z] and the
      white-space class are the ASCII ones, and a byte outside ASCII is
      carried through unchanged: this is what the code does on a text of
      ASCII characters ([asciiText]), and for the white space on a text
      without the white space characters beyond ASCII ([asciiSpaced]).
      The properties that depend on it are stated for such texts.
    - A JavaScript number is kept abstract: the renderer only ever prints
      numbers, so the number type, its printer [String(n)] and the
      finiteness test used by [JSON.stringify] are section variables.
    - An object is the list of its own enumerable entries, in the order
      [Object.entries] yields them (the keys of an object are pairwise
      distinct, which no property below needs); [objectEntries] gives
      that order from the order of insertion.
    - A computation that can throw returns an [outcome].  The member reads
      of the assembler can throw, and so can every nested call, when the
      call stack is exhausted.
    - The renderers are given twice.  [renderNode] is the recursion of
      the source as a total function: it says which markup a value
      renders to.  [renderNodeWithin] is the same recursion on a call
      stack with room for a given number of nested calls: it says when
      the markup is produced and when the engine throws [RangeError]
      instead.  The two agree whenever the stack has room for the nesting
      of the value ([renderNodeWithin_enough]).
    - The current date read by the document assembler is an explicit
      argument. *)

From Stdlib Require Import String Ascii List Bool Arith NArith Lia DecimalString.
From Stdlib Require Import Sorting.Sorted Sorting.Permutation.
Import ListNotations.

Local Open Scope list_scope.
Local Open Scope string_scope.

(** ** Text primitives of the host language *)

Module Text.

Definition char (n : nat) : string := String (ascii_of_nat n) EmptyString.

(** The double quote and the line feed, which the templates of the source
    contain literally. *)
Definition dq : string := char 34.
Definition nl : string := char 10.

Definition code (c : ascii) : nat := nat_of_ascii c.

Definition between (lo hi : nat) (c : ascii) : bool :=
  Nat.leb lo (code c) && Nat.leb (code c) hi.

(** The character class [[A-Z]]. *)
Definition isUpperAZ (c : ascii) : bool := between 65 90 c.
Definition isLowerAZ (c : ascii) : bool := between 97 122 c.

Definition upperChar (c : ascii) : ascii :=
  if isLowerAZ c then ascii_of_nat (code c - 32) else c.
Definition lowerChar (c : ascii) : ascii :=
  if isUpperAZ c then ascii_of_nat (code c + 32) else c.

(** [s.toUpperCase()] and [s.toLowerCase()]. *)
Fixpoint toUpperCase (s : string) : string :=
  match s with
  | EmptyString => EmptyString
  | String c r => String (upperChar c) (toUpperCase r)
  end.

Fixpoint toLowerCase (s : string) : string :=
  match s with
  | EmptyString => EmptyString
  | String c r => String (lowerChar c) (toLowerCase r)
  end.

(** Line terminators (not matched by [.] in a regular expression) and the
    white space of [\s] and [trim]: tab, line feed, vertical tab, form
    feed, carriage return, space. *)
Definition isLineTerminator (c : ascii) : bool :=
  Nat.eqb (code c) 10 || Nat.eqb (code c) 13.

Definition isWhiteSpace (c : ascii) : bool :=
  between 9 13 c || Nat.eqb (code c) 32.

Fixpoint trimStart (s : string) : string :=
  match s with
  | EmptyString => EmptyString
  | String c r => if isWhiteSpace c then trimStart r else s
  end.

Fixpoint trimEnd (s : string) : string :=
  match s with
  | EmptyString => EmptyString
  | String c r =>
      match trimEnd r with
      | EmptyString => if isWhiteSpace c then EmptyString else String c EmptyString
      | r' => String c r'
      end
  end.

(** [s.trim()]. *)
Definition trim (s : string) : string := trimEnd (trimStart s).

(** A string whose first character, if it has one, is not white space. *)
Definition headSolid (s : string) : bool :=
  match s with
  | EmptyString => true
  | String c _ => negb (isWhiteSpace c)
  end.

(** [s.includes(needle)]. *)
Fixpoint includes (s needle : string) : bool :=
  prefix needle s ||
  match s with
  | EmptyString => false
  | String _ r => includes r needle
  end.

(** [parts.join('')]. *)
Definition join (parts : list string) : string := String.concat "" parts.

(** Truthiness of a string: the empty string is the only falsy one. *)
Definition truthy (s : string) : bool :=
  match s with EmptyString => false | _ => true end.

(** [String(n)] for a non-negative integer such as an array index. *)
Definition ofNat (n : nat) : string := NilZero.string_of_uint (Nat.to_uint n).

(** [< tag style="css">], the one shape of opening tag the templates use. *)
Definition styled (tag css : string) : string :=
  "<" ++ tag ++ " style=" ++ dq ++ css ++ dq ++ ">".

End Text.

(** ** JSON values *)

Section Values.

(** The numbers of the host language. *)
Context {number : Type}.

(** A value as the renderer can receive it: [undefined], [null], a
    boolean, a number, a string, an array, or a plain object given by its
    own entries. *)
#[warnings="-register-all"] Inductive value : Type :=
  | VUndefined
  | VNull
  | VBool (b : bool)
  | VNum (n : number)
  | VStr (s : string)
  | VArr (items : list value)
  | VObj (entries : list (string * value)).

End Values.

Arguments value : clear implicits.

(** ** The report generator utility *)

Section ReportGenerator.

Context {number : Type}.

(** [String(n)] for a number [n], and whether [n] is finite (neither [NaN]
    nor an infinity), which is all [JSON.stringify] asks of a number. *)
Variable numberToString : number -> string.
Variable numberIsFinite : number -> bool.

Local Abbreviation value := (value number).

(** *** Type guards *)

Definition isArray (v : value) : bool :=
  match v with VArr _ => true | _ => false end.

Definition isObject (v : value) : bool :=
  match v with VObj _ => true | _ => false end.

Definition isPrimitive (v : value) : bool :=
  match v with VStr _ | VNum _ | VBool _ => true | _ => false end.

(** *** Safe accessors *)

Definition ensureArray (v : value) : list value :=
  match v with
  | VArr items => items
  | VNull | VUndefined => []
  | _ => [v]
  end.

(** [JSON.stringify]: the quoting of a string. *)
Definition hexDigit (n : nat) : string :=
  Text.char (if Nat.ltb n 10 then 48 + n else 87 + n).

Definition quoteChar (c : ascii) : string :=
  let n := Text.code c in
  if Nat.eqb n 34 then Text.char 92 ++ Text.dq
  else if Nat.eqb n 92 then Text.char 92 ++ Text.char 92
  else if Nat.eqb n 8 then Text.char 92 ++ "b"
  else if Nat.eqb n 9 then Text.char 92 ++ "t"
  else if Nat.eqb n 10 then Text.char 92 ++ "n"
  else if Nat.eqb n 12 then Text.char 92 ++ "f"
  else if Nat.eqb n 13 then Text.char 92 ++ "r"
  else if Nat.ltb n 32 then
    Text.char 92 ++ "u00" ++ hexDigit (n / 16) ++ hexDigit (n mod 16)
  else String c EmptyString.

Fixpoint quoteChars (s : string) : string :=
  match s with
  | EmptyString => EmptyString
  | String c r => quoteChar c ++ quoteChars r
  end.

Definition quote (s : string) : string := Text.dq ++ quoteChars s ++ Text.dq.

(** [parts.join(',')]. *)
Definition commaJoin (parts : list string) : string := String.concat "," parts.

(** [JSON.stringify(v)] without indentation; [None] stands for the
    [undefined] it returns on [undefined].  An [undefined] element of an
    array prints as [null], an [undefined] entry of an object is left out,
    and a number that is not finite prints as [null]. *)
Fixpoint stringify (v : value) : option string :=
  match v with
  | VUndefined => None
  | VNull => Some "null"
  | VBool b => Some (if b then "true" else "false")
  | VNum n => Some (if numberIsFinite n then numberToString n else "null")
  | VStr s => Some (quote s)
  | VArr items =>
      Some ("[" ++
            commaJoin
              (map (fun x => match stringify x with
                             | Some t => t
                             | None => "null"
                             end) items) ++
            "]")
  | VObj entries =>
      Some ("{" ++
            commaJoin
              (flat_map (fun e => match stringify (snd e) with
                                  | Some t => [quote (fst e) ++ ":" ++ t]
                                  | None => []
                                  end) entries) ++
            "}")
  end.

Definition ensureString (v : value) : string :=
  match v with
  | VStr s => s
  | VNull | VUndefined => ""
  | VNum n => numberToString n
  | VBool b => if b then "true" else "false"
  | _ => match stringify v with
         | Some t => t
         | None => "undefined"
         end
  end.

(** *** Key labels *)

(** The table of special cases of [formatKeyName]. *)
Definition specialCases : list (string * string) :=
  [ ("html_data", "HTML Data");
    ("hazardId", "Hazard ID");
    ("reportDate", "Report Date");
    ("riskRating", "Risk Rating");
    ("rootCauseAnalysis", "Root Cause Analysis");
    ("riskAssessment", "Risk Assessment");
    ("complianceReferences", "Compliance References");
    ("imageAnalysis", "Image Analysis");
    ("detectedHazards", "Detected Hazards");
    ("overallEnvironment", "Overall Environment");
    ("confidenceScore", "Confidence Score");
    ("boundingBox", "Bounding Box");
    ("hazardType", "Hazard Type");
    ("potentialHarm", "Potential Harm");
    ("riskLevel", "Risk Level");
    ("responsiblePerson", "Responsible Person");
    ("immediateAction", "Immediate Action") ].

(** The table is an object literal, so reading [specialCases[key]] falls
    back on the members every plain object inherits from
    [Object.prototype].  These are their names. *)
Definition objectPrototype : list string :=
  [ "constructor"; "__defineGetter__"; "__defineSetter__"; "hasOwnProperty";
    "__lookupGetter__"; "__lookupSetter__"; "isPrototypeOf";
    "propertyIsEnumerable"; "toString"; "valueOf"; "__proto__";
    "toLocaleString" ].

(** What a read of the table yields: the text of an own entry, or an
    inherited built-in member (a function, or the prototype object itself
    under [__proto__]). *)
Inductive slot : Type :=
| Own (text : string)
| Builtin (name : string).

Fixpoint assoc {A : Type} (key : string) (entries : list (string * A))
  : option A :=
  match entries with
  | [] => None
  | (k, a) :: rest => if String.eqb k key then Some a else assoc key rest
  end.

Definition inTable (key : string) (names : list string) : bool :=
  existsb (String.eqb key) names.

(** [specialCases[key]]; [None] is [undefined]. *)
Definition readSpecialCase (key : string) : option slot :=
  match assoc key specialCases with
  | Some text => Some (Own text)
  | None => if inTable key objectPrototype then Some (Builtin key) else None
  end.

Definition slotTruthy (s : slot) : bool :=
  match s with
  | Own text => Text.truthy text
  | Builtin _ => true
  end.

(** [key.replace(/([A-Z])/g, ' $1')]. *)
Fixpoint spaceBeforeCapitals (key : string) : string :=
  match key with
  | EmptyString => EmptyString
  | String c r =>
      if Text.isUpperAZ c
      then String " " (String c (spaceBeforeCapitals r))
      else String c (spaceBeforeCapitals r)
  end.

(** [s.replace(/^./, (str) => str.toUpperCase())]: the dot matches any
    first character but a line terminator. *)
Definition capitalizeFirst (s : string) : string :=
  match s with
  | EmptyString => EmptyString
  | String c r =>
      if Text.isLineTerminator c then s
      else Text.toUpperCase (String c EmptyString) ++ r
  end.

(** The conversion from camelCase to Title Case. *)
Definition titleCase (key : string) : string :=
  Text.trim (capitalizeFirst (spaceBeforeCapitals key)).

Definition formatKeyName (key : string) : slot :=
  match readSpecialCase key with
  | Some found => if slotTruthy found then found else Own (titleCase key)
  | None => Own (titleCase key)
  end.

(** The generic transform in the words of the specification: a space
    before every capital that is not the first character, the first
    character in upper case, surrounding white space trimmed. *)
Definition spaceBeforeInnerCapitals (key : string) : string :=
  match key with
  | EmptyString => EmptyString
  | String c r => String c (spaceBeforeCapitals r)
  end.

Definition upperFirst (s : string) : string :=
  match s with
  | EmptyString => EmptyString
  | String c r => String (Text.upperChar c) r
  end.

Definition titleCaseSpec (key : string) : string :=
  Text.trim (upperFirst (spaceBeforeInnerCapitals key)).

(** The text a slot contributes when a template interpolates it.  An own
    entry is its text; a built-in function prints as its native source
    text (written here as V8 prints it), and the prototype object as
    [[object Object]]. *)
Definition interpolate (s : slot) : string :=
  match s with
  | Own text => text
  | Builtin name =>
      if String.eqb name "__proto__" then "[object Object]"
      else "function " ++
           (if String.eqb name "constructor" then "Object" else name) ++
           "() { [native code] }"
  end.

(** *** Highlighting *)

Definition highlightKeys : list string :=
  [ "title"; "description"; "hazard"; "action"; "risk"; "severity";
    "category"; "location"; "immediateAction"; "riskRating" ].

Definition isHighlightKey (key : string) : bool :=
  existsb (fun k => Text.includes (Text.toLowerCase key) (Text.toLowerCase k))
          highlightKeys.

(** *** Primitive values *)

Definition emphasized (displayValue : string) : string :=
  Text.styled "p" "margin: 0; font-weight: 600; color: #111827; line-height: 1.6;"
  ++ displayValue ++ "</p>".

Definition standard (displayValue : string) : string :=
  Text.styled "p" "margin: 0; color: #4b5563; line-height: 1.6;"
  ++ displayValue ++ "</p>".

Definition renderPrimitive (v : value) (key : option string) : string :=
  let displayValue := ensureString v in
  let isHighlight :=
    match key with
    | Some k => Text.truthy k && isHighlightKey k
    | None => false
    end in
  if isHighlight then emphasized displayValue else standard displayValue.

(** *** Arrays and objects *)

(** The node both renderers return for an empty collection. *)
Definition placeholder : string :=
  Text.styled "p" "margin: 0; color: #9ca3af; font-style: italic;"
  ++ "No data available</p>".

(** [arr.map((item, index) => f item index)]. *)
Fixpoint mapFrom {A B : Type} (f : A -> nat -> B) (index : nat) (l : list A)
  : list B :=
  match l with
  | [] => []
  | x :: r => f x index :: mapFrom f (S index) r
  end.

Definition mapIndexed {A B : Type} (f : A -> nat -> B) (l : list A) : list B :=
  mapFrom f 0 l.

(** [parts.filter(Boolean)] on strings. *)
Definition filterBoolean (parts : list string) : list string :=
  filter Text.truthy parts.

Definition listItem (item : value) : string :=
  Text.styled "li" "margin-bottom: 6px; color: #4b5563;"
  ++ ensureString item ++ "</li>".

Definition bulletList (arr : list value) : string :=
  Text.nl ++ "      "
  ++ Text.styled "ul" "padding-left: 20px; margin: 8px 0; line-height: 1.8;"
  ++ Text.nl ++ "        " ++ Text.join (map listItem arr)
  ++ Text.nl ++ "      </ul>" ++ Text.nl ++ "    ".

Definition cardBackground (depth : nat) : string :=
  if Nat.eqb depth 0 then "#f9fafb" else "#ffffff".

(** The card of an object element; [content] is the rendered object. *)
Definition objectCard (depth index : nat) (content : string) : string :=
  Text.nl ++ "            "
  ++ Text.styled "div"
       ("padding: 15px; background-color: " ++ cardBackground depth
        ++ "; border: 1px solid #e5e7eb; border-radius: 6px;")
  ++ Text.nl ++ "              "
  ++ Text.styled "div"
       "margin-bottom: 8px; font-weight: 600; color: #6b7280; font-size: 13px;"
  ++ "Item " ++ Text.ofNat (index + 1) ++ "</div>"
  ++ Text.nl ++ "              " ++ content
  ++ Text.nl ++ "            </div>" ++ Text.nl ++ "          ".

(** The block of an element that is not an object. *)
Definition plainCard (item : value) : string :=
  Text.styled "div"
    "padding: 10px; background-color: #f9fafb; border-radius: 4px;"
  ++ renderPrimitive (VStr (ensureString item)) None ++ "</div>".

Definition cardStack (cards : list string) : string :=
  Text.nl ++ "    "
  ++ Text.styled "div"
       "display: flex; flex-direction: column; gap: 12px; margin-top: 8px;"
  ++ Text.nl ++ "      " ++ Text.join cards
  ++ Text.nl ++ "    </div>" ++ Text.nl ++ "  ".

(** The block of one entry of an object: a heading over the rendered value. *)
Definition fieldBlock (heading content : string) : string :=
  Text.nl ++ "            <div>"
  ++ Text.nl ++ "              " ++ heading
  ++ Text.nl ++ "              " ++ content
  ++ Text.nl ++ "            </div>" ++ Text.nl ++ "          ".

Definition caption (label : string) : string :=
  Text.styled "p"
    "margin: 0 0 4px 0; color: #6b7280; font-size: 13px; text-transform: uppercase; letter-spacing: 0.5px; font-weight: 600;"
  ++ label ++ "</p>".

Definition listHeading (label : string) : string :=
  Text.styled "p"
    "margin: 0 0 8px 0; color: #111827; font-size: 15px; font-weight: 600;"
  ++ label ++ "</p>".

Definition sectionHeading (label : string) : string :=
  Text.styled "h3"
    "margin: 0 0 12px 0; color: #111827; font-size: 16px; font-weight: 700; border-left: 4px solid #3b82f6; padding-left: 12px;"
  ++ label ++ "</h3>".

Definition fieldStack (blocks : list string) : string :=
  Text.nl ++ "    "
  ++ Text.styled "div" "display: flex; flex-direction: column; gap: 12px;"
  ++ Text.nl ++ "      " ++ Text.join blocks
  ++ Text.nl ++ "    </div>" ++ Text.nl ++ "  ".

Definition isReserved (key : string) : bool :=
  String.eqb key "message" || String.eqb key "html_data".

(** The entries of a mapping that are not under a reserved key. *)
Definition displayed (obj : list (string * value)) : list (string * value) :=
  filter (fun entry => negb (isReserved (fst entry))) obj.

Definition isAbsent (v : value) : bool :=
  match v with VNull | VUndefined => true | _ => false end.

(** An entry that produces no output: it is under a reserved key or its
    value is absent. *)
Definition silent (entry : string * value) : bool :=
  isReserved (fst entry) || isAbsent (snd entry).

(** The bodies of [renderArray] and [renderObject], which call each other.
    The nested calls go through [render], which stands for [renderArray] on
    an array and for [renderObject] on an object. *)
Section Bodies.

Variable render : value -> nat -> string.

Definition renderCard (depth : nat) (item : value) (index : nat) : string :=
  if isObject item
  then objectCard depth index (render item (depth + 1))
  else plainCard item.

Definition renderArrayBody (arr : list value) (key : option string)
  (depth : nat) : string :=
  match arr with
  | [] => placeholder
  | _ =>
      if forallb isPrimitive arr then bulletList arr
      else cardStack (mapIndexed (renderCard depth) arr)
  end.

Definition renderEntryBody (depth : nat) (entry : string * value) : string :=
  let (key, v) := entry in
  if isReserved key then ""
  else
    let label := interpolate (formatKeyName key) in
    if isPrimitive v then
      fieldBlock (caption label) (renderPrimitive v (Some key))
    else if isArray v then
      fieldBlock (listHeading label) (render v depth)
    else if isObject v then
      fieldBlock (sectionHeading label) (render v (depth + 1))
    else "".

Definition renderObjectBody (obj : list (string * value)) (depth : nat)
  : string :=
  match obj with
  | [] => placeholder
  | _ => fieldStack (filterBoolean (map (renderEntryBody depth) obj))
  end.

End Bodies.

Fixpoint renderNode (v : value) (depth : nat) {struct v} : string :=
  match v with
  | VArr arr => renderArrayBody renderNode arr None depth
  | VObj obj => renderObjectBody renderNode obj depth
  | _ => ""
  end.

Definition renderArray (arr : list value) (key : option string) (depth : nat)
  : string :=
  renderArrayBody renderNode arr key depth.

Definition renderObject (obj : list (string * value)) (depth : nat) : string :=
  renderObjectBody renderNode obj depth.

Definition renderCardOf := renderCard renderNode.
Definition renderEntry := renderEntryBody renderNode.

(** *** The document assembler *)

(** A computation of the host language either returns or throws. *)
Inductive outcome (A : Type) : Type :=
| Returns (a : A)
| Throws (error : string).

Arguments Returns {A} a.
Arguments Throws {A} error.

Definition bind {A B : Type} (m : outcome A) (k : A -> outcome B)
  : outcome B :=
  match m with
  | Returns a => k a
  | Throws e => Throws e
  end.

Notation "x <- m ;; k" := (bind m (fun x => k))
  (at level 61, m at next level, right associativity).

(** The member read [v.name], for the two names the assembler reads,
    [title] and [hazardDetails].  Neither is an array index, [length], or a
    member of a built-in prototype, so a value reads as its own entry of
    that name when it is an object that has one and as [undefined]
    otherwise; on [null] and [undefined] the read throws. *)
Definition readMember (v : value) (name : string) : outcome value :=
  match v with
  | VUndefined => Throws "TypeError: cannot read properties of undefined"
  | VNull => Throws "TypeError: cannot read properties of null"
  | VObj entries =>
      Returns (match assoc name entries with
               | Some found => found
               | None => VUndefined
               end)
  | _ => Returns VUndefined
  end.

(** [typeof v === 'object' && v !== null]. *)
Definition isNonNullObject (v : value) : bool := isObject v || isArray v.

Definition subtitleLine (reportSubtitle : string) : string :=
  if Text.truthy reportSubtitle
  then Text.styled "p" "color: #6b7280; font-size: 16px; margin: 0;"
       ++ reportSubtitle ++ "</p>"
  else "".

Definition mainHeading (reportTitle : string) : string :=
  Text.styled "h1"
    "color: #111827; font-size: 28px; font-weight: 700; margin: 0 0 10px 0;"
  ++ reportTitle ++ "</h1>".

(** Everything of the page before the body, and everything after it;
    [today] is [new Date().toLocaleDateString()]. *)
Definition pageHead (reportTitle reportSubtitle : string) : string :=
  Text.nl ++ "    "
  ++ Text.styled "div"
       "font-family: 'Segoe UI', Tahoma, Geneva, Verdana, sans-serif; padding: 40px; color: #1f2937; max-width: 900px; margin: 0 auto; background-color: #ffffff;"
  ++ Text.nl ++ "      "
  ++ Text.nl ++ "      <!-- Header -->"
  ++ Text.nl ++ "      "
  ++ Text.styled "div"
       "border-bottom: 2px solid #e5e7eb; padding-bottom: 20px; margin-bottom: 30px;"
  ++ Text.nl ++ "        " ++ mainHeading reportTitle
  ++ Text.nl ++ "        " ++ subtitleLine reportSubtitle
  ++ Text.nl ++ "      </div>"
  ++ Text.nl
  ++ Text.nl ++ "      <!-- Content -->"
  ++ Text.nl ++ "      ".

Definition pageFoot (today : string) : string :=
  Text.nl
  ++ Text.nl ++ "      <!-- Footer -->"
  ++ Text.nl ++ "      "
  ++ Text.styled "div"
       "margin-top: 50px; text-align: center; border-top: 1px solid #e5e7eb; padding-top: 20px;"
  ++ Text.nl ++ "        "
  ++ Text.styled "p" "color: #9ca3af; font-size: 12px;"
  ++ "Generated by AI Report Generator • " ++ today ++ "</p>"
  ++ Text.nl ++ "      </div>"
  ++ Text.nl ++ "    </div>"
  ++ Text.nl ++ "  ".

(** The title and the subtitle of the report. *)
Definition reportTitles (data : value) (title : string)
  : outcome (string * string) :=
  if isObject data then
    dataTitle <- readMember data "title" ;;
    let reportTitle :=
      match dataTitle with VStr s => s | _ => title end in
    hazardDetails <- readMember data "hazardDetails" ;;
    if isNonNullObject hazardDetails then
      hazardTitle <- readMember hazardDetails "title" ;;
      Returns (reportTitle,
               match hazardTitle with VStr s => s | _ => "" end)
    else Returns (reportTitle, "")
  else Returns (title, "").

Definition bodyContent (data : value) : string :=
  match data with
  | VObj obj => renderObject obj 0
  | VArr _ => renderArray (ensureArray data) None 0
  | _ => renderPrimitive (VStr (ensureString data)) None
  end.

(** The default of the parameter [title]. *)
Definition titleOr (title : option string) : string :=
  match title with Some t => t | None => "Report" end.

(** [generateHtmlFromData(data, title)]; a [title] left out is [None]. *)
Definition generateHtmlFromData (data : value) (title : option string)
  (today : string) : outcome string :=
  titles <- reportTitles data (titleOr title) ;;
  let (reportTitle, reportSubtitle) := titles in
  Returns (pageHead reportTitle reportSubtitle
           ++ bodyContent data
           ++ pageFoot today).

End ReportGenerator.

Arguments Returns {A} a.
Arguments Throws {A} error.

(** A concrete choice of numbers, for evaluating the renderer on examples:
    the natural numbers, printed in decimal, all of them finite. *)
Definition natToString (n : nat) : string := Text.ofNat n.
Definition natIsFinite (n : nat) : bool := true.

(** ** The code-fence stripping of the CAPA generator *)

Module CapaGenerator.

(** The pieces the regular expression of [generateReport] is made of: a
    literal, a greedy star over a character class, and a lazy star over a
    character class that is the one capturing group. *)
Inductive piece : Type :=
| Literal (text : string)
| Greedy (class : ascii -> bool)
| LazyGroup (class : ascii -> bool).

Fixpoint skip (n : nat) (s : string) : string :=
  match n, s with
  | S m, String _ r => skip m r
  | _, _ => s
  end.

Definition orElse {A : Type} (first second : option A) : option A :=
  match first with
  | Some a => Some a
  | None => second
  end.

(** Backtracking match of a sequence of pieces at the start of [s];
    [captured] is what the group holds so far, and the result is what it
    holds when the whole sequence has matched.  A greedy star first tries
    to take one more character, a lazy one first tries to go on without. *)
Fixpoint matchPieces (pattern : list piece) (s captured : string)
  {struct pattern} : option string :=
  match pattern with
  | [] => Some captured
  | Literal text :: rest =>
      if prefix text s
      then matchPieces rest (skip (String.length text) s) captured
      else None
  | Greedy class :: rest =>
      (fix star (s : string) : option string :=
         match s with
         | EmptyString => matchPieces rest s captured
         | String c r =>
             if class c
             then orElse (star r) (matchPieces rest s captured)
             else matchPieces rest s captured
         end) s
  | LazyGroup class :: rest =>
      (fix star (s captured : string) : option string :=
         orElse (matchPieces rest s captured)
                match s with
                | EmptyString => None
                | String c r =>
                    if class c
                    then star r (captured ++ String c EmptyString)
                    else None
                end) s captured
  end.

(** [s.match(pattern)] for a pattern without the global flag: the match
    at the leftmost position that has one; the result is its group. *)
Fixpoint matchFirst (pattern : list piece) (s : string) : option string :=
  orElse (matchPieces pattern s EmptyString)
         match s with
         | EmptyString => None
         | String _ r => matchFirst pattern r
         end.

Definition fence : string := "```".
Definition openingFence : string := "```html".

Definition anyChar (c : ascii) : bool := true.

(** The expression [/```html\s*([\s\S]*?)\s*```/]. *)
Definition fencePattern : list piece :=
  [ Literal openingFence; Greedy Text.isWhiteSpace; LazyGroup anyChar;
    Greedy Text.isWhiteSpace; Literal fence ].

(** The step of [generateReport] that replaces [data.html_data]. *)
Definition stripCodeFence (html_data : string) : string :=
  if Text.truthy html_data && Text.includes html_data openingFence then
    match matchFirst fencePattern html_data with
    | Some group => if Text.truthy group then Text.trim group else html_data
    | None => html_data
    end
  else html_data.

(** Whether the closing part of the pattern, white space and the fence,
    matches at the start of [s]. *)
Definition closes (s : string) : bool := prefix fence (Text.trimStart s).

End CapaGenerator.

(** ** The typed report of the CAPA generator component *)

Section CapaReport.

Context {number : Type}.
Variable numberToString : number -> string.

Local Abbreviation value := (value number).

Local Notation "x <- m ;; k" := (bind m (fun x => k))
  (at level 61, m at next level, right associativity).

(** The string a template puts in for a value.  An array prints its
    elements between commas, [null] and [undefined] among them as nothing;
    a plain object prints as [[object Object]], unless it has an entry
    [toString] of its own: that entry hides the inherited method, it is no
    function, and the conversion throws. *)
Fixpoint toText (v : value) : outcome string :=
  match v with
  | VUndefined => Returns "undefined"
  | VNull => Returns "null"
  | VBool b => Returns (if b then "true" else "false")
  | VNum n => Returns (numberToString n)
  | VStr s => Returns s
  | VArr items =>
      parts <-
        (fix elements (l : list value) : outcome (list string) :=
           match l with
           | [] => Returns []
           | x :: r =>
               t <- match x with
                    | VUndefined | VNull => Returns ""
                    | _ => toText x
                    end ;;
               ts <- elements r ;;
               Returns (t :: ts)
           end) items ;;
      Returns (commaJoin parts)
  | VObj entries =>
      match assoc "toString" entries with
      | Some _ => Throws "TypeError: Cannot convert object to primitive value"
      | None => Returns "[object Object]"
      end
  end.

(** The member read [v.name] for the names the component reads.  As with
    [title] and [hazardDetails], none of them is an array index, [length]
    or a member of a built-in prototype. *)
Definition member (v : value) (name : string) : outcome value :=
  readMember v name.

(** [data.section.field], as a template puts it in. *)
Definition interpolated (data : value) (section field : string)
  : outcome string :=
  part <- member data section ;;
  v <- member part field ;;
  toText v.

(** [s.split(' ')[0]]: the text before the first space. *)
Fixpoint firstSegment (s : string) : string :=
  match s with
  | EmptyString => EmptyString
  | String c r =>
      if Ascii.eqb c " " then EmptyString else String c (firstSegment r)
  end.

(** [v.split(' ')[0]]: only a string has the method [split]. *)
Definition firstWord (v : value) : outcome string :=
  match v with
  | VStr s => Returns (firstSegment s)
  | VUndefined => Throws "TypeError: cannot read properties of undefined"
  | VNull => Throws "TypeError: cannot read properties of null"
  | _ => Throws "TypeError: split is not a function"
  end.

Definition actionItem (action : string) : string :=
  Text.styled "li" "margin-bottom: 8px;" ++ action ++ "</li>".

(** [items.map(f)] for a callback that can throw. *)
Fixpoint mapThrowing {A B : Type} (f : A -> outcome B) (items : list A)
  : outcome (list B) :=
  match items with
  | [] => Returns []
  | x :: r =>
      y <- f x ;;
      ys <- mapThrowing f r ;;
      Returns (y :: ys)
  end.

(** [v.map(action => `<li ...>${action}</li>`).join('')]: only an array
    has the method [map]. *)
Definition actionItems (v : value) : outcome string :=
  match v with
  | VArr items =>
      parts <- mapThrowing
                 (fun action => t <- toText action ;; Returns (actionItem t))
                 items ;;
      Returns (Text.join parts)
  | VUndefined => Throws "TypeError: cannot read properties of undefined"
  | VNull => Throws "TypeError: cannot read properties of null"
  | _ => Throws "TypeError: map is not a function"
  end.

(** The template of [generateHtmlReport] around its interpolated texts. *)
Definition capaReportMarkup
  (title riskWord reportDate hazardId location category description
   immediateAction rootCauseAnalysis correctiveItems responsiblePerson
   timeline preventiveItems riskAssessment complianceReferences today
   : string) : string :=
  Text.nl ++ "    " ++ Text.styled "div" "font-family: 'Segoe UI', Tahoma, Geneva, Verdana, sans-serif; padding: 40px; color: #1f2937; max-width: 800px; margin: 0 auto; background-color: #ffffff;"
  ++ Text.nl ++ "      "
  ++ Text.nl ++ "      <!-- Header -->"
  ++ Text.nl ++ "      " ++ Text.styled "div" "border-bottom: 2px solid #e5e7eb; padding-bottom: 20px; margin-bottom: 30px; display: flex; justify-content: space-between; align-items: start;"
  ++ Text.nl ++ "        <div>"
  ++ Text.nl ++ "          " ++ Text.styled "h1" "color: #111827; font-size: 28px; font-weight: 700; margin: 0 0 10px 0;" ++ "CAPA Report</h1>"
  ++ Text.nl ++ "          " ++ Text.styled "p" "color: #6b7280; font-size: 16px; margin: 0;" ++ title ++ "</p>"
  ++ Text.nl ++ "        </div>"
  ++ Text.nl ++ "        " ++ Text.styled "div" "text-align: right;"
  ++ Text.nl ++ "           " ++ Text.styled "span" "display: inline-block; background-color: #fee2e2; color: #991b1b; padding: 6px 12px; border-radius: 9999px; font-size: 14px; font-weight: 600;"
  ++ Text.nl ++ "            " ++ riskWord ++ " Risk"
  ++ Text.nl ++ "          </span>"
  ++ Text.nl ++ "        </div>"
  ++ Text.nl ++ "      </div>"
  ++ Text.nl
  ++ Text.nl ++ "      <!-- Info Grid -->"
  ++ Text.nl ++ "      " ++ Text.styled "div" "display: grid; grid-template-columns: 1fr 1fr; gap: 20px; margin-bottom: 30px; background-color: #f9fafb; padding: 20px; border-radius: 8px;"
  ++ Text.nl ++ "        <div>"
  ++ Text.nl ++ "          " ++ Text.styled "p" "margin: 0 0 5px 0; color: #6b7280; font-size: 13px; text-transform: uppercase; letter-spacing: 0.5px; font-weight: 600;" ++ "Report Date</p>"
  ++ Text.nl ++ "          " ++ Text.styled "p" "margin: 0; font-weight: 500;" ++ reportDate ++ "</p>"
  ++ Text.nl ++ "        </div>"
  ++ Text.nl ++ "         <div>"
  ++ Text.nl ++ "          " ++ Text.styled "p" "margin: 0 0 5px 0; color: #6b7280; font-size: 13px; text-transform: uppercase; letter-spacing: 0.5px; font-weight: 600;" ++ "Hazard ID</p>"
  ++ Text.nl ++ "          " ++ Text.styled "p" "margin: 0; font-family: monospace; font-weight: 500;" ++ hazardId ++ "</p>"
  ++ Text.nl ++ "        </div>"
  ++ Text.nl ++ "        <div>"
  ++ Text.nl ++ "          " ++ Text.styled "p" "margin: 0 0 5px 0; color: #6b7280; font-size: 13px; text-transform: uppercase; letter-spacing: 0.5px; font-weight: 600;" ++ "Location</p>"
  ++ Text.nl ++ "          " ++ Text.styled "p" "margin: 0; font-weight: 500;" ++ location ++ "</p>"
  ++ Text.nl ++ "        </div>"
  ++ Text.nl ++ "        <div>"
  ++ Text.nl ++ "          " ++ Text.styled "p" "margin: 0 0 5px 0; color: #6b7280; font-size: 13px; text-transform: uppercase; letter-spacing: 0.5px; font-weight: 600;" ++ "Category</p>"
  ++ Text.nl ++ "          " ++ Text.styled "p" "margin: 0; font-weight: 500;" ++ category ++ "</p>"
  ++ Text.nl ++ "        </div>"
  ++ Text.nl ++ "      </div>"
  ++ Text.nl
  ++ Text.nl ++ "      <!-- Section 1: Hazard Details -->"
  ++ Text.nl ++ "      " ++ Text.styled "div" "margin-bottom: 30px;"
  ++ Text.nl ++ "        " ++ Text.styled "h2" "color: #111827; font-size: 18px; font-weight: 700; border-left: 4px solid #3b82f6; padding-left: 12px; margin-bottom: 15px;" ++ "1. Hazard Description</h2>"
  ++ Text.nl ++ "        " ++ Text.styled "p" "line-height: 1.6; margin-bottom: 15px;" ++ description ++ "</p>"
  ++ Text.nl ++ "        " ++ Text.styled "div" "background-color: #eff6ff; border: 1px solid #bfdbfe; border-radius: 6px; padding: 15px;"
  ++ Text.nl ++ "          " ++ Text.styled "p" "margin: 0; color: #1e40af; font-size: 14px;" ++ "<strong>Immediate Action:</strong> " ++ immediateAction ++ "</p>"
  ++ Text.nl ++ "        </div>"
  ++ Text.nl ++ "      </div>"
  ++ Text.nl
  ++ Text.nl ++ "      <!-- Section 2: Root Cause -->"
  ++ Text.nl ++ "      " ++ Text.styled "div" "margin-bottom: 30px;"
  ++ Text.nl ++ "        " ++ Text.styled "h2" "color: #111827; font-size: 18px; font-weight: 700; border-left: 4px solid #3b82f6; padding-left: 12px; margin-bottom: 15px;" ++ "2. Root Cause Analysis</h2>"
  ++ Text.nl ++ "        " ++ Text.styled "p" "white-space: pre-wrap; line-height: 1.6; font-size: 14px;" ++ rootCauseAnalysis ++ "</p>"
  ++ Text.nl ++ "      </div>"
  ++ Text.nl
  ++ Text.nl ++ "      <!-- Section 3: Corrective Actions -->"
  ++ Text.nl ++ "      " ++ Text.styled "div" "margin-bottom: 30px;"
  ++ Text.nl ++ "        " ++ Text.styled "h2" "color: #111827; font-size: 18px; font-weight: 700; border-left: 4px solid #3b82f6; padding-left: 12px; margin-bottom: 15px;" ++ "3. Corrective Actions</h2>"
  ++ Text.nl ++ "        " ++ Text.styled "ul" "padding-left: 20px; line-height: 1.6; margin-bottom: 15px;"
  ++ Text.nl ++ "           " ++ correctiveItems
  ++ Text.nl ++ "        </ul>"
  ++ Text.nl ++ "        " ++ Text.styled "div" "display: flex; gap: 20px; font-size: 14px;"
  ++ Text.nl ++ "           " ++ Text.styled "span" "color: #4b5563;" ++ "<strong>Responsible:</strong> " ++ responsiblePerson ++ "</span>"
  ++ Text.nl ++ "           " ++ Text.styled "span" "color: #4b5563;" ++ "<strong>Timeline:</strong> " ++ timeline ++ "</span>"
  ++ Text.nl ++ "        </div>"
  ++ Text.nl ++ "      </div>"
  ++ Text.nl
  ++ Text.nl ++ "      <!-- Section 4: Preventive Actions -->"
  ++ Text.nl ++ "      " ++ Text.styled "div" "margin-bottom: 30px;"
  ++ Text.nl ++ "        " ++ Text.styled "h2" "color: #111827; font-size: 18px; font-weight: 700; border-left: 4px solid #3b82f6; padding-left: 12px; margin-bottom: 15px;" ++ "4. Preventive Actions</h2>"
  ++ Text.nl ++ "        " ++ Text.styled "ul" "padding-left: 20px; line-height: 1.6; margin-bottom: 15px;"
  ++ Text.nl ++ "           " ++ preventiveItems
  ++ Text.nl ++ "        </ul>"
  ++ Text.nl ++ "      </div>"
  ++ Text.nl
  ++ Text.nl ++ "      <!-- Section 5: Compliance -->"
  ++ Text.nl ++ "      " ++ Text.styled "div" "margin-bottom: 30px;"
  ++ Text.nl ++ "        " ++ Text.styled "h2" "color: #111827; font-size: 18px; font-weight: 700; border-left: 4px solid #3b82f6; padding-left: 12px; margin-bottom: 15px;" ++ "5. Compliance & Risks</h2>"
  ++ Text.nl ++ "        " ++ Text.styled "div" "font-size: 14px;"
  ++ Text.nl ++ "           " ++ Text.styled "p" "margin-bottom: 10px;" ++ "<strong>Risk Assessment:</strong></p>"
  ++ Text.nl ++ "           " ++ Text.styled "p" "white-space: pre-wrap; margin-bottom: 20px; color: #4b5563; line-height: 1.5;" ++ riskAssessment ++ "</p>"
  ++ Text.nl ++ "           "
  ++ Text.nl ++ "           " ++ Text.styled "p" "margin-bottom: 10px;" ++ "<strong>Compliance References:</strong></p>"
  ++ Text.nl ++ "           " ++ Text.styled "p" "white-space: pre-wrap; color: #4b5563; line-height: 1.5;" ++ complianceReferences ++ "</p>"
  ++ Text.nl ++ "        </div>"
  ++ Text.nl ++ "      </div>"
  ++ Text.nl
  ++ Text.nl ++ "      <!-- Footer -->"
  ++ Text.nl ++ "       " ++ Text.styled "div" "margin-top: 50px; text-align: center; border-top: 1px solid #e5e7eb; padding-top: 20px;"
  ++ Text.nl ++ "         " ++ Text.styled "p" "color: #9ca3af; font-size: 12px;" ++ "Generated by AI CAPA Generator â€¢ " ++ today ++ "</p>"
  ++ Text.nl ++ "       </div>"
  ++ Text.nl ++ "    </div>"
  ++ Text.nl ++ "  ".

(** [generateHtmlReport(data)]; the texts are computed in the order of the
    template. *)
Definition generateHtmlReport (data : value) (today : string)
  : outcome string :=
  title <- interpolated data "hazardDetails" "title" ;;
  hazardDetails <- member data "hazardDetails" ;;
  riskRating <- member hazardDetails "riskRating" ;;
  riskWord <- firstWord riskRating ;;
  reportDate <- interpolated data "hazardDetails" "reportDate" ;;
  hazardId <- interpolated data "hazardDetails" "hazardId" ;;
  location <- interpolated data "hazardDetails" "location" ;;
  category <- interpolated data "hazardDetails" "category" ;;
  description <- interpolated data "hazardDetails" "description" ;;
  immediateAction <- interpolated data "hazardDetails" "immediateAction" ;;
  rootCauseAnalysis <-
    interpolated data "additionalInformation" "rootCauseAnalysis" ;;
  correctiveActions <- member data "correctiveActions" ;;
  correctiveAction <- member correctiveActions "action" ;;
  correctiveItems <- actionItems correctiveAction ;;
  responsiblePerson <-
    interpolated data "correctiveActions" "responsiblePerson" ;;
  timeline <- interpolated data "correctiveActions" "timeline" ;;
  preventiveActions <- member data "preventiveActions" ;;
  preventiveAction <- member preventiveActions "action" ;;
  preventiveItems <- actionItems preventiveAction ;;
  riskAssessment <-
    interpolated data "additionalInformation" "riskAssessment" ;;
  complianceReferences <-
    interpolated data "additionalInformation" "complianceReferences" ;;
  Returns (capaReportMarkup title riskWord reportDate hazardId location
             category description immediateAction rootCauseAnalysis
             correctiveItems responsiblePerson timeline preventiveItems
             riskAssessment complianceReferences today).

(** The extraction of the markup from a fenced block, as the component
    that handles structured responses writes it. *)
Definition extractHtml (htmlContent : string) : string :=
  if Text.includes htmlContent CapaGenerator.openingFence then
    match CapaGenerator.matchFirst CapaGenerator.fencePattern htmlContent with
    | Some group =>
        if Text.truthy group then Text.trim group else htmlContent
    | None => htmlContent
    end
  else htmlContent.

(** What [generateReport] makes of the parsed response: the message and
    the markup it stores as the result. *)
Definition readResponse (rawData : value) (today : string)
  : outcome (value * string) :=
  message <- member rawData "message" ;;
  html_data <- member rawData "html_data" ;;
  if isNonNullObject html_data then
    htmlContent <- generateHtmlReport html_data today ;;
    Returns (message, htmlContent)
  else
    match html_data with
    | VStr htmlContent => Returns (message, extractHtml htmlContent)
    | _ => Returns (message, "")
    end.

End CapaReport.

(** The part of the declared shape of the structured data ([CapaData])
    that the report reads: fields that are strings, and lists of strings. *)
Section Conformance.

Context {number : Type}.

Definition isText (v : value number) : bool :=
  match v with VStr _ => true | _ => false end.

Definition textOfValue (v : value number) : string :=
  match v with VStr s => s | _ => "" end.

Definition textField (obj : list (string * value number)) (name : string)
  : bool :=
  match assoc name obj with
  | Some v => isText v
  | None => false
  end.

Definition textOf (obj : list (string * value number)) (name : string)
  : string :=
  match assoc name obj with
  | Some v => textOfValue v
  | None => ""
  end.

Definition listField (obj : list (string * value number)) (name : string)
  : bool :=
  match assoc name obj with
  | Some v => isArray v
  | None => false
  end.

Definition textList (obj : list (string * value number)) (name : string)
  : bool :=
  match assoc name obj with
  | Some (VArr items) => forallb isText items
  | _ => false
  end.

Definition textsOf (obj : list (string * value number)) (name : string)
  : list string :=
  match assoc name obj with
  | Some (VArr items) => map textOfValue items
  | _ => []
  end.

End Conformance.

(** The simulated progress of [generateReport]: each tick of the timer
    adds 10 up to 90, and the tick that finds 90 stops the timer. *)
Record progressState : Type :=
  { progress : nat; ticking : bool }.

Definition progressTick (state : progressState) : progressState :=
  if ticking state then
    if Nat.leb 90 (progress state)
    then {| progress := 90; ticking := false |}
    else {| progress := progress state + 10; ticking := true |}
  else state.

Fixpoint ticks (n : nat) (state : progressState) : progressState :=
  match n with
  | O => state
  | S m => progressTick (ticks m state)
  end.

(** Structured data of the declared shape, for evaluating the typed report
    on an example. *)
Definition sampleHazard : list (string * value nat) :=
  [ ("hazardId", VStr "HZ-1"); ("title", VStr "No helmet");
    ("description", VStr "Worker without helmet");
    ("location", VStr "Bay 3"); ("category", VStr "PPE");
    ("riskRating", VStr "High (12)"); ("immediateAction", VStr "Stop work");
    ("reportDate", VStr "2025-01-01") ].

Definition sampleInformation : list (string * value nat) :=
  [ ("rootCauseAnalysis", VStr "No supervision");
    ("riskAssessment", VStr "Head injury");
    ("complianceReferences", VStr "OSHA 1910.135") ].

Definition sampleCorrective : list (string * value nat) :=
  [ ("action", VArr [VStr "Issue helmets"; VStr "Brief the crew"]);
    ("responsiblePerson", VStr "Site lead"); ("timeline", VStr "1 day") ].

Definition samplePreventive : list (string * value nat) :=
  [ ("action", VArr [VStr "Weekly audit"]) ].

Definition sampleData : list (string * value nat) :=
  [ ("hazardDetails", VObj sampleHazard);
    ("correctiveActions", VObj sampleCorrective);
    ("preventiveActions", VObj samplePreventive);
    ("additionalInformation", VObj sampleInformation) ].

(** ** Notions used by the further properties *)

(** [needle] is a contiguous part of [s]. *)
Definition occurs (needle s : string) : Prop :=
  exists before after : string, s = before ++ needle ++ after.

(** Every character of [s] satisfies [p]. *)
Fixpoint allChars (p : ascii -> bool) (s : string) : bool :=
  match s with
  | EmptyString => true
  | String c r => p c && allChars p r
  end.

Section ValueInduction.

Context {number : Type}.
Variable P : value number -> Prop.
Hypothesis Hundefined : P VUndefined.
Hypothesis Hnull : P VNull.
Hypothesis Hbool : forall b, P (VBool b).
Hypothesis Hnum : forall n, P (VNum n).
Hypothesis Hstr : forall s, P (VStr s).
Hypothesis Harr : forall items, Forall P items -> P (VArr items).
Hypothesis Hobj :
  forall entries, Forall (fun entry => P (snd entry)) entries ->
                  P (VObj entries).

(** Induction over a value, with the hypothesis at hand for every element
    of an array and for the value of every entry of an object. *)
Fixpoint value_induction (v : value number) : P v :=
  match v with
  | VUndefined => Hundefined
  | VNull => Hnull
  | VBool b => Hbool b
  | VNum n => Hnum n
  | VStr s => Hstr s
  | VArr items =>
      Harr items
        ((fix elements (l : list (value number)) : Forall P l :=
            match l with
            | [] => Forall_nil P
            | x :: r => Forall_cons x (value_induction x) (elements r)
            end) items)
  | VObj entries =>
      Hobj entries
        ((fix fields (l : list (string * value number))
            : Forall (fun entry => P (snd entry)) l :=
            match l with
            | [] => Forall_nil _
            | e :: r => Forall_cons e (value_induction (snd e)) (fields r)
            end) entries)
  end.

End ValueInduction.

Section Header.

Context {number : Type}.

(** The heading and the subtitle of the page, read off the value without
    the guards: the string [title] of a mapping, else the caller's title;
    the string [title] of a mapping under [hazardDetails], else none. *)
Definition titleOf (data : value number) (title : string) : string :=
  match data with
  | VObj obj =>
      match assoc "title" obj with
      | Some (VStr text) => text
      | _ => title
      end
  | _ => title
  end.

Definition subtitleOf (data : value number) : string :=
  match data with
  | VObj obj =>
      match assoc "hazardDetails" obj with
      | Some (VObj hazard) =>
          match assoc "title" hazard with
          | Some (VStr text) => text
          | _ => ""
          end
      | _ => ""
      end
  | _ => ""
  end.

End Header.

(** A key without capitals and without white space. *)
Definition plainKey (key : string) : bool :=
  allChars (fun c => negb (Text.isUpperAZ c) && negb (Text.isWhiteSpace c)) key.

Section Displayed.

Context {number : Type}.

(** The strings of a value that the renderers display as they are: a
    string element of a sequence, a string field of a mapping outside the
    reserved keys, and the like inside the mappings of a sequence and
    inside the sequences and mappings of such fields. *)
Inductive shown (text : string) : value number -> Prop :=
| shown_element (arr : list (value number)) :
    In (VStr text) arr -> shown text (VArr arr)
| shown_card (arr : list (value number)) (obj : list (string * value number)) :
    In (VObj obj) arr -> shown text (VObj obj) -> shown text (VArr arr)
| shown_field (obj : list (string * value number)) (key : string) :
    isReserved key = false -> In (key, VStr text) obj ->
    shown text (VObj obj)
| shown_inside (obj : list (string * value number)) (key : string)
    (v : value number) :
    isReserved key = false -> In (key, v) obj ->
    isArray v || isObject v = true -> shown text v ->
    shown text (VObj obj).

End Displayed.

(** ** The call stack *)

(** The renderers call each other once for every level of nesting of the
    value, and so does [JSON.stringify]; the engine allows only so many
    nested calls and throws [RangeError] beyond.  Here the renderers are
    written with that bound: [stack] is the number of nested calls of a
    renderer, or of the serializer, that the engine still allows. *)
Section CallStack.

Context {number : Type}.
Variable numberToString : number -> string.
Variable numberIsFinite : number -> bool.

Local Abbreviation value := (value number).

Local Notation "x <- m ;; k" := (bind m (fun x => k))
  (at level 61, m at next level, right associativity).

Definition rangeError : string :=
  "RangeError: Maximum call stack size exceeded".

Definition deepest (levels : list nat) : nat := fold_right Nat.max 0 levels.

(** The levels of arrays and objects of a value, one inside the other. *)
Fixpoint nesting (v : value) : nat :=
  match v with
  | VArr items => S (deepest (map nesting items))
  | VObj entries => S (deepest (map (fun entry => nesting (snd entry)) entries))
  | _ => 0
  end.

(** [arr.map((item, index) => f item index)] for a callback that can
    throw. *)
Fixpoint mapFromThrowing {A B : Type} (f : A -> nat -> outcome B)
  (index : nat) (l : list A) : outcome (list B) :=
  match l with
  | [] => Returns []
  | x :: r =>
      y <- f x index ;;
      ys <- mapFromThrowing f (S index) r ;;
      Returns (y :: ys)
  end.

(** [JSON.stringify] on a bounded stack: every array and every object
    takes one nested call. *)
Fixpoint stringifyWithin (stack : nat) (v : value) {struct v}
  : outcome (option string) :=
  match v with
  | VArr items =>
      match stack with
      | O => Throws rangeError
      | S below =>
          parts <- mapThrowing
                     (fun x =>
                        r <- stringifyWithin below x ;;
                        Returns (match r with
                                 | Some t => t
                                 | None => "null"
                                 end)) items ;;
          Returns (Some ("[" ++ commaJoin parts ++ "]"))
      end
  | VObj entries =>
      match stack with
      | O => Throws rangeError
      | S below =>
          parts <- mapThrowing
                     (fun e =>
                        r <- stringifyWithin below (snd e) ;;
                        Returns (match r with
                                 | Some t => [quote (fst e) ++ ":" ++ t]
                                 | None => []
                                 end)) entries ;;
          Returns (Some ("{" ++ commaJoin (List.concat parts) ++ "}"))
      end
  | _ => Returns (stringify numberToString numberIsFinite v)
  end.

Definition ensureStringWithin (stack : nat) (v : value) : outcome string :=
  match v with
  | VArr _ | VObj _ =>
      r <- stringifyWithin stack v ;;
      Returns (match r with
               | Some t => t
               | None => "undefined"
               end)
  | _ => Returns (ensureString numberToString numberIsFinite v)
  end.

(** The bodies of the two renderers once more, now with nested calls that
    can throw: [render] is the nested call of a renderer and [text] the
    call of [ensureString], both one call deeper. *)
Section StackBodies.

Variable render : value -> nat -> outcome string.
Variable text : value -> outcome string.

Definition renderCardWithin (depth : nat) (item : value) (index : nat)
  : outcome string :=
  if isObject item then
    content <- render item (depth + 1) ;;
    Returns (objectCard depth index content)
  else
    displayValue <- text item ;;
    Returns (plainCard numberToString numberIsFinite (VStr displayValue)).

Definition renderArrayBodyWithin (arr : list value) (key : option string)
  (depth : nat) : outcome string :=
  match arr with
  | [] => Returns placeholder
  | _ =>
      if forallb isPrimitive arr
      then Returns (bulletList numberToString numberIsFinite arr)
      else
        cards <- mapFromThrowing (renderCardWithin depth) 0 arr ;;
        Returns (cardStack cards)
  end.

Definition renderEntryBodyWithin (depth : nat) (entry : string * value)
  : outcome string :=
  let (key, v) := entry in
  if isReserved key then Returns ""
  else
    let label := interpolate (formatKeyName key) in
    if isPrimitive v then
      Returns (fieldBlock (caption label)
                 (renderPrimitive numberToString numberIsFinite v (Some key)))
    else if isArray v then
      content <- render v depth ;;
      Returns (fieldBlock (listHeading label) content)
    else if isObject v then
      content <- render v (depth + 1) ;;
      Returns (fieldBlock (sectionHeading label) content)
    else Returns "".

Definition renderObjectBodyWithin (obj : list (string * value)) (depth : nat)
  : outcome string :=
  match obj with
  | [] => Returns placeholder
  | _ =>
      blocks <- mapThrowing (renderEntryBodyWithin depth) obj ;;
      Returns (fieldStack (filterBoolean blocks))
  end.

End StackBodies.

(** A call of [renderArray] or of [renderObject] with [stack] nested calls
    left, itself included. *)
Fixpoint renderNodeWithin (stack : nat) (v : value) (depth : nat) {struct v}
  : outcome string :=
  match v with
  | VArr arr =>
      match stack with
      | O => Throws rangeError
      | S below =>
          renderArrayBodyWithin (renderNodeWithin below)
            (ensureStringWithin below) arr None depth
      end
  | VObj obj =>
      match stack with
      | O => Throws rangeError
      | S below =>
          renderObjectBodyWithin (renderNodeWithin below) obj depth
      end
  | _ => Returns ""
  end.

Definition bodyContentWithin (stack : nat) (data : value) : outcome string :=
  match data with
  | VObj _ | VArr _ => renderNodeWithin stack data 0
  | _ =>
      Returns (renderPrimitive numberToString numberIsFinite
                 (VStr (ensureString numberToString numberIsFinite data))
                 None)
  end.

(** [generateHtmlFromData(data, title)] on an engine that allows [stack]
    nested calls of the renderers. *)
Definition generateHtmlFromDataWithin (stack : nat) (data : value)
  (title : option string) (today : string) : outcome string :=
  titles <- reportTitles data (titleOr title) ;;
  let (reportTitle, reportSubtitle) := titles in
  body <- bodyContentWithin stack data ;;
  Returns (pageHead reportTitle reportSubtitle ++ body ++ pageFoot today).

(** A mapping inside a mapping, [levels] times over. *)
Fixpoint nested (levels : nat) : value :=
  match levels with
  | O => VObj []
  | S inner => VObj [("a", nested inner)]
  end.

End CallStack.

(** ** The order of the entries of an object *)

(** [Object.entries] does not yield the entries in the order in which
    they were put into the object: the keys that are array indices (a
    decimal numeral without a leading zero, below 2^32 - 1) come first,
    by ascending value, and the other keys follow in the order of their
    insertion. *)
Definition isDigit (c : ascii) : bool := Text.between 48 57 c.

Fixpoint numeralValue (s : string) (value : N) : N :=
  match s with
  | EmptyString => value
  | String c r =>
      numeralValue r (10 * value + N.of_nat (Text.code c - 48))%N
  end.

Definition arrayIndex (key : string) : option N :=
  match key with
  | EmptyString => None
  | String c r =>
      if allChars isDigit key
         && negb (Ascii.eqb c "0" && Text.truthy r)
         && N.ltb (numeralValue key 0%N) 4294967295%N
      then Some (numeralValue key 0%N)
      else None
  end.

Definition isIndexKey (key : string) : bool :=
  match arrayIndex key with Some _ => true | None => false end.

Definition indexValue (key : string) : N :=
  match arrayIndex key with Some n => n | None => 0%N end.

Section EntryOrder.

Context {A : Type}.

Fixpoint insertByIndex (entry : string * A) (sorted : list (string * A))
  : list (string * A) :=
  match sorted with
  | [] => [entry]
  | first :: rest =>
      if N.leb (indexValue (fst entry)) (indexValue (fst first))
      then entry :: sorted
      else first :: insertByIndex entry rest
  end.

Definition sortByIndex (entries : list (string * A)) : list (string * A) :=
  fold_right insertByIndex [] entries.

Definition indexEntries (entries : list (string * A)) : list (string * A) :=
  filter (fun entry => isIndexKey (fst entry)) entries.

Definition namedEntries (entries : list (string * A)) : list (string * A) :=
  filter (fun entry => negb (isIndexKey (fst entry))) entries.

Definition byIndex (a b : string * A) : Prop :=
  (indexValue (fst a) <= indexValue (fst b))%N.

(** [Object.entries(obj)] for an object whose entries, under pairwise
    distinct keys, were inserted in the order [inserted]. *)
Definition objectEntries (inserted : list (string * A)) : list (string * A) :=
  sortByIndex (filter (fun entry => isIndexKey (fst entry)) inserted)
  ++ filter (fun entry => negb (isIndexKey (fst entry))) inserted.

End EntryOrder.

(** ** Text within the reach of the ASCII mappings *)

(** A text of ASCII characters only. *)
Definition asciiText (s : string) : bool :=
  allChars (fun c => Nat.ltb (Text.code c) 128) s.

Definition bytes (codes : list nat) : string :=
  fold_right (fun n s => String (ascii_of_nat n) s) EmptyString codes.

(** The white space characters beyond ASCII, in UTF-8: U+00A0, U+1680,
    U+2000 to U+200A, U+2028, U+2029, U+202F, U+205F, U+3000, U+FEFF. *)
Definition wideSpaces : list string :=
  map bytes
    [ [194; 160]; [225; 154; 128];
      [226; 128; 128]; [226; 128; 129]; [226; 128; 130]; [226; 128; 131];
      [226; 128; 132]; [226; 128; 133]; [226; 128; 134]; [226; 128; 135];
      [226; 128; 136]; [226; 128; 137]; [226; 128; 138];
      [226; 128; 168]; [226; 128; 169]; [226; 128; 175];
      [226; 129; 159]; [227; 128; 128]; [239; 187; 191] ].

(** A text whose white space, if any, is ASCII white space. *)
Definition asciiSpaced (s : string) : bool :=
  forallb (fun wide => negb (Text.includes s wide)) wideSpaces.

(** ** Properties of the report generator *)

Section Properties.

Context {number : Type}.
Variable numberToString : number -> string.
Variable numberIsFinite : number -> bool.

Local Abbreviation value := (value number).
Local Abbreviation ensureString := (ensureString numberToString numberIsFinite).
Local Abbreviation renderPrimitive :=
  (renderPrimitive numberToString numberIsFinite).
Local Abbreviation renderNode := (renderNode numberToString numberIsFinite).
Local Abbreviation renderArray := (renderArray numberToString numberIsFinite).
Local Abbreviation renderObject := (renderObject numberToString numberIsFinite).
Local Abbreviation renderEntry := (renderEntry numberToString numberIsFinite).
Local Abbreviation renderCardOf := (renderCardOf numberToString numberIsFinite).
Local Abbreviation plainCard := (plainCard numberToString numberIsFinite).
Local Abbreviation bulletList := (bulletList numberToString numberIsFinite).
Local Abbreviation bodyContent := (bodyContent numberToString numberIsFinite).
Local Abbreviation generateHtmlFromData :=
  (generateHtmlFromData numberToString numberIsFinite).

(** *** Text *)

Lemma append_assoc (a b c : string) : (a ++ b) ++ c = a ++ (b ++ c).
Proof. induction a as [| x a IH]; simpl; [reflexivity | now rewrite IH]. Qed.

Lemma append_empty_r (a : string) : a ++ "" = a.
Proof. induction a as [| x a IH]; simpl; [reflexivity | now rewrite IH]. Qed.

Lemma join_cons (part : string) (parts : list string) :
  Text.join (part :: parts) = part ++ Text.join parts.
Proof.
  unfold Text.join. destruct parts; simpl; [now rewrite append_empty_r |].
  reflexivity.
Qed.

Lemma join_app (front back : list string) :
  Text.join (front ++ back) = Text.join front ++ Text.join back.
Proof.
  induction front as [| part front IH]; [reflexivity |].
  change ((part :: front) ++ back)%list with (part :: (front ++ back))%list.
  now rewrite !join_cons, IH, append_assoc.
Qed.

Lemma join_filterBoolean (parts : list string) :
  Text.join (filterBoolean parts) = Text.join parts.
Proof.
  induction parts as [| part parts IH]; [reflexivity |].
  unfold filterBoolean in *. simpl. rewrite join_cons.
  destruct part; simpl; [exact IH | now rewrite join_cons, IH].
Qed.

Lemma fieldStack_filterBoolean (blocks : list string) :
  fieldStack (filterBoolean blocks) = fieldStack blocks.
Proof. unfold fieldStack. now rewrite join_filterBoolean. Qed.

(** *** The equations of the two renderers, in the shape of the source *)

Lemma renderArray_empty (key : option string) (depth : nat) :
  renderArray [] key depth = placeholder.
Proof. reflexivity. Qed.

Lemma renderObject_empty (depth : nat) : renderObject [] depth = placeholder.
Proof. reflexivity. Qed.

Lemma renderArray_key (arr : list value) (key key' : option string)
  (depth : nat) :
  renderArray arr key depth = renderArray arr key' depth.
Proof. reflexivity. Qed.

Lemma renderNode_array (arr : list value) (depth : nat) :
  renderNode (VArr arr) depth = renderArray arr None depth.
Proof. reflexivity. Qed.

Lemma renderNode_object (obj : list (string * value)) (depth : nat) :
  renderNode (VObj obj) depth = renderObject obj depth.
Proof. reflexivity. Qed.

Lemma renderObject_entries (obj : list (string * value)) (depth : nat) :
  obj <> [] ->
  renderObject obj depth
  = fieldStack (filterBoolean (map (renderEntry depth) obj)).
Proof. destruct obj; [congruence | reflexivity]. Qed.

Lemma renderArray_primitives (arr : list value) (key : option string)
  (depth : nat) :
  arr <> [] -> forallb isPrimitive arr = true ->
  renderArray arr key depth = bulletList arr.
Proof.
  intros Hne Hall. destruct arr; [congruence |].
  unfold renderArray, renderArrayBody. now rewrite Hall.
Qed.

Lemma renderArray_cards (arr : list value) (key : option string)
  (depth : nat) :
  arr <> [] -> forallb isPrimitive arr = false ->
  renderArray arr key depth = cardStack (mapIndexed (renderCardOf depth) arr).
Proof.
  intros Hne Hall. destruct arr; [congruence |].
  unfold renderArray, renderArrayBody. now rewrite Hall.
Qed.

Lemma renderCardOf_object (depth index : nat) (obj : list (string * value)) :
  renderCardOf depth (VObj obj) index
  = objectCard depth index (renderObject obj (depth + 1)).
Proof. reflexivity. Qed.

Lemma renderCardOf_other (depth index : nat) (item : value) :
  isObject item = false -> renderCardOf depth item index = plainCard item.
Proof.
  intros H. unfold renderCardOf, renderCard. now rewrite H.
Qed.

Lemma renderEntry_reserved (depth : nat) (key : string) (v : value) :
  isReserved key = true -> renderEntry depth (key, v) = "".
Proof.
  intros H. unfold renderEntry, renderEntryBody. now rewrite H.
Qed.

Lemma renderEntry_primitive (depth : nat) (key : string) (v : value) :
  isReserved key = false -> isPrimitive v = true ->
  renderEntry depth (key, v)
  = fieldBlock (caption (interpolate (formatKeyName key)))
               (renderPrimitive v (Some key)).
Proof.
  intros Hk Hv. unfold renderEntry, renderEntryBody. now rewrite Hk, Hv.
Qed.

Lemma renderEntry_array (depth : nat) (key : string) (v : value) :
  isReserved key = false -> isArray v = true ->
  renderEntry depth (key, v)
  = fieldBlock (listHeading (interpolate (formatKeyName key)))
               (renderArray (ensureArray v) (Some key) depth).
Proof.
  intros Hk Hv. unfold renderEntry, renderEntryBody. rewrite Hk.
  destruct v; try discriminate. reflexivity.
Qed.

Lemma renderEntry_object (depth : nat) (key : string)
  (obj : list (string * value)) :
  isReserved key = false ->
  renderEntry depth (key, VObj obj)
  = fieldBlock (sectionHeading (interpolate (formatKeyName key)))
               (renderObject obj (depth + 1)).
Proof.
  intros Hk. unfold renderEntry, renderEntryBody. now rewrite Hk.
Qed.

Lemma renderEntry_absent (depth : nat) (key : string) (v : value) :
  v = VNull \/ v = VUndefined -> renderEntry depth (key, v) = "".
Proof.
  intros [-> | ->]; unfold renderEntry, renderEntryBody;
    now destruct (isReserved key).
Qed.

(** *** Sequence coercion *)

(** C6.  [ensureArray] is idempotent, returns a sequence unchanged, maps
    both [null] and [undefined] to the empty sequence, and wraps any other
    value in a one-element sequence. *)
Theorem ensureArray_idempotent (x : value) :
  ensureArray (VArr (ensureArray x)) = ensureArray x
  /\ (forall items : list value, ensureArray (VArr items) = items)
  /\ ensureArray (VNull : value) = []
  /\ ensureArray (VUndefined : value) = []
  /\ (isArray x = false -> x <> VNull -> x <> VUndefined ->
      ensureArray x = [x]).
Proof.
  repeat split.
  destruct x; simpl; intros Harr Hnull Hundef;
    try reflexivity; try congruence.
Qed.

(** *** Empty collections *)

(** C2.  The empty mapping and the empty sequence render as the same
    placeholder node, at every depth, and the documents assembled from
    them have that node, which carries the text of the placeholder, as
    their whole body. *)
Theorem empty_mapping_and_sequence_placeholder
  (title : option string) (today : string) (key : option string)
  (depth : nat) :
  renderObject [] depth = renderArray [] key depth
  /\ renderObject [] depth = placeholder
  /\ Text.includes placeholder "No data available" = true
  /\ generateHtmlFromData (VObj []) title today
     = Returns (pageHead (titleOr title) "" ++ placeholder ++ pageFoot today)
  /\ generateHtmlFromData (VArr []) title today
     = Returns (pageHead (titleOr title) "" ++ placeholder ++ pageFoot today).
Proof.
  repeat split; destruct title; reflexivity.
Qed.

(** *** Highlighting of primitive values *)

Lemma emphasized_not_standard (text : string) :
  emphasized text <> standard text.
Proof.
  unfold emphasized, standard, Text.styled. simpl. intros H.
  injection H as H. discriminate.
Qed.

Lemma isHighlightKey_nonempty (key : string) :
  isHighlightKey key = true -> Text.truthy key = true.
Proof. now destruct key. Qed.

(** C8.  A primitive value rendered with its key is emphasized exactly
    when the key triggers the highlight predicate; the emphasized styling
    has the bold weight and the darker colour, the standard one has
    neither, so the two differ; and inside a mapping the field
    [riskRating] is emphasized while the field [notes] is not. *)
Theorem renderPrimitive_highlight (v : value) (key : string) (depth : nat) :
  renderPrimitive v (Some key)
  = (if isHighlightKey key then emphasized (ensureString v)
     else standard (ensureString v))
  /\ emphasized (ensureString v) <> standard (ensureString v)
  /\ emphasized (ensureString v)
     = Text.styled "p"
         "margin: 0; font-weight: 600; color: #111827; line-height: 1.6;"
       ++ ensureString v ++ "</p>"
  /\ standard (ensureString v)
     = Text.styled "p" "margin: 0; color: #4b5563; line-height: 1.6;"
       ++ ensureString v ++ "</p>"
  /\ isHighlightKey "riskRating" = true
  /\ isHighlightKey "notes" = false
  /\ (forall text : string,
        renderEntry depth ("riskRating", VStr text)
        = fieldBlock (caption "Risk Rating") (emphasized text))
  /\ (forall text : string,
        renderEntry depth ("notes", VStr text)
        = fieldBlock (caption "Notes") (standard text)).
Proof.
  split; [| split; [apply emphasized_not_standard | repeat split]].
  unfold renderPrimitive.
  destruct (isHighlightKey key) eqn:Hk.
  - now rewrite (isHighlightKey_nonempty key Hk).
  - now rewrite andb_false_r.
Qed.

(** *** Totality of the document assembler *)

Lemma readMember_guarded (data : value) (name : string) :
  isNonNullObject data = true ->
  exists found : value, readMember data name = Returns found.
Proof.
  destruct data; try discriminate; intros _; eexists; reflexivity.
Qed.

Lemma reportTitles_returns (data : value) (title : string) :
  exists titles : string * string, reportTitles data title = Returns titles.
Proof.
  unfold reportTitles. destruct data; simpl; try (eexists; reflexivity).
  destruct (isNonNullObject _) eqn:Hobj; [| eexists; reflexivity].
  destruct (readMember_guarded _ "title" Hobj) as [found ->].
  eexists; reflexivity.
Qed.

(** With no bound on the call stack the assembler returns for every value
    and every title: the member reads are guarded. *)
Theorem generateHtmlFromData_total
  (data : value) (title : option string) (today : string) :
  exists reportTitle reportSubtitle : string,
    generateHtmlFromData data title today
    = Returns (pageHead reportTitle reportSubtitle
               ++ bodyContent data ++ pageFoot today).
Proof.
  unfold generateHtmlFromData.
  destruct (reportTitles_returns data (titleOr title)) as [[t u] H].
  rewrite H. exists t, u. reflexivity.
Qed.

(** *** Reserved keys *)

Lemma isReserved_iff (key : string) :
  isReserved key = true <-> key = "message" \/ key = "html_data".
Proof.
  unfold isReserved. rewrite orb_true_iff, !String.eqb_eq. reflexivity.
Qed.

Lemma blocks_displayed (obj : list (string * value)) (depth : nat) :
  Text.join (map (renderEntry depth) obj)
  = Text.join (map (renderEntry depth) (displayed obj)).
Proof.
  induction obj as [| [key v] obj IH]; [reflexivity |].
  unfold displayed in *. cbn [map filter fst].
  destruct (isReserved key) eqn:Hk; cbn [negb map].
  - now rewrite join_cons, renderEntry_reserved, IH.
  - now rewrite !join_cons, IH.
Qed.

Lemma fieldBlock_nonempty (heading content : string) :
  fieldBlock heading content <> "".
Proof. discriminate. Qed.

Lemma insertByIndex_permutation {A : Type} (entry : string * A)
  (sorted : list (string * A)) :
  Permutation (insertByIndex entry sorted) (entry :: sorted).
Proof.
  induction sorted as [| first rest IH]; [reflexivity |].
  cbn [insertByIndex]. destruct (N.leb _ _); [reflexivity |].
  rewrite IH. apply perm_swap.
Qed.

Lemma sortByIndex_permutation {A : Type} (entries : list (string * A)) :
  Permutation (sortByIndex entries) entries.
Proof.
  induction entries as [| entry entries IH]; [reflexivity |].
  cbn [sortByIndex fold_right]. fold (sortByIndex entries).
  rewrite insertByIndex_permutation. now constructor.
Qed.

Lemma insertByIndex_sorted {A : Type} (entry : string * A)
  (sorted : list (string * A)) :
  StronglySorted byIndex sorted ->
  StronglySorted byIndex (insertByIndex entry sorted).
Proof.
  induction 1 as [| first rest Hrest IH Hfirst]; cbn [insertByIndex].
  - repeat constructor.
  - destruct (N.leb_spec (indexValue (fst entry)) (indexValue (fst first)))
      as [Hle | Hlt].
    + constructor; [now constructor |].
      constructor; [exact Hle |].
      revert Hfirst. apply Forall_impl. unfold byIndex. intros; lia.
    + constructor; [exact IH |].
      apply (Permutation_Forall
               (Permutation_sym (insertByIndex_permutation entry rest))).
      constructor; [unfold byIndex; lia | exact Hfirst].
Qed.

Lemma sortByIndex_sorted {A : Type} (entries : list (string * A)) :
  StronglySorted byIndex (sortByIndex entries).
Proof.
  induction entries as [| entry entries IH]; [constructor |].
  cbn [sortByIndex fold_right]. now apply insertByIndex_sorted.
Qed.

Lemma filter_all {A : Type} (p : A -> bool) (l : list A) :
  Forall (fun x => p x = true) l -> filter p l = l.
Proof.
  induction 1 as [| x l Hx _ IH]; [reflexivity |].
  cbn [filter]. now rewrite Hx, IH.
Qed.

Lemma filter_none {A : Type} (p : A -> bool) (l : list A) :
  Forall (fun x => p x = false) l -> filter p l = [].
Proof.
  induction 1 as [| x l Hx _ IH]; [reflexivity |].
  cbn [filter]. now rewrite Hx.
Qed.

Lemma filter_holds {A : Type} (p : A -> bool) (l : list A) :
  Forall (fun x => p x = true) (filter p l).
Proof.
  apply Forall_forall. intros x Hx. now apply filter_In in Hx.
Qed.

Lemma sortByIndex_index {A : Type} (entries : list (string * A)) :
  Forall (fun entry => isIndexKey (fst entry) = true)
         (sortByIndex (indexEntries entries)).
Proof.
  apply (Permutation_Forall
           (Permutation_sym (sortByIndex_permutation (indexEntries entries)))).
  apply (filter_holds (fun entry => isIndexKey (fst entry))).
Qed.

Lemma partition_permutation {A : Type} (p : A -> bool) (l : list A) :
  Permutation (filter p l ++ filter (fun x => negb (p x)) l)%list l.
Proof.
  induction l as [| x l IH]; [reflexivity |].
  cbn [filter]. destruct (p x); cbn [negb app].
  - now constructor.
  - rewrite <- Permutation_middle. now constructor.
Qed.

(** The order of [Object.entries]: nothing is lost, the entries under
    array-index keys come first, by ascending index, and the other
    entries follow in their order of insertion. *)
Lemma objectEntries_order {A : Type} (inserted : list (string * A)) :
  Permutation (objectEntries inserted) inserted
  /\ objectEntries inserted
     = (indexEntries (objectEntries inserted)
        ++ namedEntries (objectEntries inserted))%list
  /\ StronglySorted byIndex (indexEntries (objectEntries inserted))
  /\ namedEntries (objectEntries inserted) = namedEntries inserted.
Proof.
  assert (Hsplit : objectEntries inserted
                   = (sortByIndex (indexEntries inserted)
                      ++ namedEntries inserted)%list) by reflexivity.
  pose proof (sortByIndex_index inserted) as Hsorted.
  pose proof (filter_holds (fun entry : string * A =>
                              negb (isIndexKey (fst entry))) inserted)
    as Hrest.
  fold (namedEntries inserted) in Hrest.
  assert (Hindex : indexEntries (objectEntries inserted)
                   = sortByIndex (indexEntries inserted)).
  { rewrite Hsplit. unfold indexEntries at 1. rewrite filter_app.
    rewrite (filter_all _ _ Hsorted), filter_none; [apply app_nil_r |].
    revert Hrest. apply Forall_impl. intros entry. apply negb_true_iff. }
  assert (Hnamed : namedEntries (objectEntries inserted)
                   = namedEntries inserted).
  { rewrite Hsplit. unfold namedEntries at 1. rewrite filter_app.
    rewrite (filter_all _ _ Hrest), filter_none; [reflexivity |].
    revert Hsorted. apply Forall_impl. intros entry ->. reflexivity. }
  split; [| split; [| split]].
  - rewrite Hsplit, sortByIndex_permutation.
    apply partition_permutation.
  - now rewrite Hindex, Hnamed.
  - rewrite Hindex. apply sortByIndex_sorted.
  - exact Hnamed.
Qed.

(** C3, as the code has it.  The entries under the two reserved keys
    [message] and [html_data] are skipped, whatever their values; every
    other entry with a primitive, array or object value contributes its
    block - the label over the rendered value - and the blocks stand in
    the field stack in the order of [Object.entries], which is the order
    of insertion but for the array-index keys, which come first, by
    ascending index. *)
Theorem renderObject_skips_reserved
  (obj : list (string * value)) (depth : nat) :
  obj <> [] ->
  renderObject obj depth
  = Text.nl ++ "    "
    ++ Text.styled "div" "display: flex; flex-direction: column; gap: 12px;"
    ++ Text.nl ++ "      "
    ++ Text.join (map (renderEntry depth) (displayed obj))
    ++ Text.nl ++ "    </div>" ++ Text.nl ++ "  "
  /\ (forall key : string,
        isReserved key = true <-> key = "message" \/ key = "html_data")
  /\ (forall (before after : list (string * value)) (key : string)
             (v v' : value),
        isReserved key = true ->
        renderObject (before ++ (key, v) :: after) depth
        = renderObject (before ++ (key, v') :: after) depth)
  /\ (forall (key : string) (v : value),
        isReserved key = false -> isPrimitive v = true ->
        renderEntry depth (key, v)
        = Text.nl ++ "            <div>"
          ++ Text.nl ++ "              "
          ++ (Text.styled "p"
                "margin: 0 0 4px 0; color: #6b7280; font-size: 13px; text-transform: uppercase; letter-spacing: 0.5px; font-weight: 600;"
              ++ interpolate (formatKeyName key) ++ "</p>")
          ++ Text.nl ++ "              " ++ renderPrimitive v (Some key)
          ++ Text.nl ++ "            </div>" ++ Text.nl ++ "          ")
  /\ (forall (key : string) (arr : list value),
        isReserved key = false ->
        renderEntry depth (key, VArr arr)
        = Text.nl ++ "            <div>"
          ++ Text.nl ++ "              "
          ++ (Text.styled "p"
                "margin: 0 0 8px 0; color: #111827; font-size: 15px; font-weight: 600;"
              ++ interpolate (formatKeyName key) ++ "</p>")
          ++ Text.nl ++ "              " ++ renderArray arr (Some key) depth
          ++ Text.nl ++ "            </div>" ++ Text.nl ++ "          ")
  /\ (forall (key : string) (inner : list (string * value)),
        isReserved key = false ->
        renderEntry depth (key, VObj inner)
        = Text.nl ++ "            <div>"
          ++ Text.nl ++ "              "
          ++ (Text.styled "h3"
                "margin: 0 0 12px 0; color: #111827; font-size: 16px; font-weight: 700; border-left: 4px solid #3b82f6; padding-left: 12px;"
              ++ interpolate (formatKeyName key) ++ "</h3>")
          ++ Text.nl ++ "              " ++ renderObject inner (depth + 1)
          ++ Text.nl ++ "            </div>" ++ Text.nl ++ "          ")
  /\ (forall inserted : list (string * value),
        Permutation (objectEntries inserted) inserted
        /\ objectEntries inserted
           = (indexEntries (objectEntries inserted)
              ++ namedEntries (objectEntries inserted))%list
        /\ StronglySorted byIndex (indexEntries (objectEntries inserted))
        /\ namedEntries (objectEntries inserted) = namedEntries inserted).
Proof.
  intros Hne.
  split; [| split; [exact isReserved_iff | split; [| split; [| split;
    [| split; [| exact objectEntries_order]]]]]].
  - rewrite (renderObject_entries obj depth Hne), fieldStack_filterBoolean.
    unfold fieldStack. now rewrite blocks_displayed.
  - intros before after key v v' Hk.
    rewrite !renderObject_entries by (now destruct before).
    rewrite !map_app. cbn [map].
    now rewrite !(renderEntry_reserved depth key) by exact Hk.
  - intros key v Hk Hv. now rewrite renderEntry_primitive.
  - intros key arr Hk. now rewrite renderEntry_array.
  - intros key inner Hk. now rewrite renderEntry_object.
Qed.

(** *** Mappings whose entries all produce nothing *)

Lemma renderEntry_silent (depth : nat) (entry : string * value) :
  silent entry = true <-> renderEntry depth entry = "".
Proof.
  destruct entry as [key v]. unfold silent. cbn [fst snd]. split.
  - rewrite orb_true_iff. intros [Hk | Hv].
    + now apply renderEntry_reserved.
    + apply renderEntry_absent. destruct v; try discriminate; auto.
  - intros H. destruct (isReserved key) eqn:Hk; [reflexivity |].
    cbn [orb]. destruct v; try reflexivity; exfalso; revert H.
    + rewrite renderEntry_primitive by easy. apply fieldBlock_nonempty.
    + rewrite renderEntry_primitive by easy. apply fieldBlock_nonempty.
    + rewrite renderEntry_primitive by easy. apply fieldBlock_nonempty.
    + rewrite renderEntry_array by easy. apply fieldBlock_nonempty.
    + rewrite renderEntry_object by easy. apply fieldBlock_nonempty.
Qed.

Lemma silent_blocks (obj : list (string * value)) (depth : nat) :
  forallb silent obj = true ->
  filterBoolean (map (renderEntry depth) obj) = [].
Proof.
  induction obj as [| entry obj IH]; [reflexivity |].
  cbn [forallb]. rewrite andb_true_iff. intros [He Hobj].
  apply (renderEntry_silent depth) in He. unfold filterBoolean in *.
  cbn [map filter]. rewrite He. cbn [Text.truthy]. now apply IH.
Qed.

(** C4, as the code has it.  A mapping with no entries renders as the
    placeholder node, the node of an empty sequence.  A mapping that has
    entries, all of them silent, renders as a field stack with nothing in
    it, which is not the placeholder. *)
Theorem renderObject_silent_entries
  (obj : list (string * value)) (depth : nat) :
  forallb silent obj = true ->
  renderObject obj depth
  = match obj with
    | [] => renderArray [] None depth
    | _ => fieldStack []
    end
  /\ renderArray [] None depth = placeholder
  /\ fieldStack [] <> placeholder.
Proof.
  intros Hsilent. split; [| split; [reflexivity | discriminate]].
  destruct obj as [| entry obj]; [reflexivity |].
  rewrite renderObject_entries by discriminate.
  now rewrite silent_blocks.
Qed.

(** *** Sequences that are not all primitive *)

Lemma mapFrom_length {A B : Type} (f : A -> nat -> B) (start : nat)
  (l : list A) :
  List.length (mapFrom f start l) = List.length l.
Proof.
  revert start. induction l as [| x l IH]; intros start;
    [reflexivity | simpl; now rewrite IH].
Qed.

Lemma mapFrom_nth {A B : Type} (f : A -> nat -> B) (start index : nat)
  (l : list A) (x : A) :
  nth_error l index = Some x ->
  nth_error (mapFrom f start l) index = Some (f x (start + index)).
Proof.
  revert start index. induction l as [| y l IH]; intros start index.
  - now destruct index.
  - destruct index as [| index]; simpl.
    + intros [= ->]. now rewrite Nat.add_0_r.
    + intros H. rewrite (IH (S start) index H). f_equal. f_equal. lia.
Qed.

Lemma plainCard_standard (item : value) :
  plainCard item
  = Text.styled "div"
      "padding: 10px; background-color: #f9fafb; border-radius: 4px;"
    ++ standard (ensureString item) ++ "</div>".
Proof. reflexivity. Qed.

Lemma cardStack_not_bulletList (cards : list string) (arr : list value) :
  cardStack cards <> bulletList arr.
Proof. discriminate. Qed.

(** C7, as the code has it.  A non-empty sequence that is not all
    primitive renders as a card stack, not as a bulleted list, with one
    block per element in the order of the sequence.  An object element is
    a card that carries the label "Item N", N its position counted from
    one, over the mapping rendered at depth + 1, on a background that is
    #f9fafb at depth 0 and #ffffff at every other depth.  Any other element
    is a plain block, without a label, around the standard rendering of
    its string form. *)
Theorem renderArray_card_stack
  (arr : list value) (key : option string) (depth : nat) :
  arr <> [] -> forallb isPrimitive arr = false ->
  renderArray arr key depth = cardStack (mapIndexed (renderCardOf depth) arr)
  /\ renderArray arr key depth <> bulletList arr
  /\ List.length (mapIndexed (renderCardOf depth) arr) = List.length arr
  /\ (forall (index : nat) (obj : list (string * value)),
        nth_error arr index = Some (VObj obj) ->
        nth_error (mapIndexed (renderCardOf depth) arr) index
        = Some (objectCard depth index (renderObject obj (depth + 1))))
  /\ (forall (index : nat) (item : value),
        nth_error arr index = Some item -> isObject item = false ->
        nth_error (mapIndexed (renderCardOf depth) arr) index
        = Some (Text.styled "div"
                  "padding: 10px; background-color: #f9fafb; border-radius: 4px;"
                ++ standard (ensureString item) ++ "</div>"))
  /\ (forall (index : nat) (content : string),
        exists before after : string,
          objectCard depth index content
          = before ++ "background-color: "
            ++ (if Nat.eqb depth 0 then "#f9fafb" else "#ffffff")
            ++ after ++ "Item " ++ Text.ofNat (index + 1) ++ "</div>"
            ++ Text.nl ++ "              " ++ content
            ++ Text.nl ++ "            </div>" ++ Text.nl ++ "          ").
Proof.
  intros Hne Hmixed.
  rewrite (renderArray_cards arr key depth Hne Hmixed).
  split; [reflexivity |].
  split; [apply cardStack_not_bulletList |].
  split; [apply mapFrom_length |].
  split; [| split].
  - intros index obj Hnth. unfold mapIndexed.
    now rewrite (mapFrom_nth _ 0 index arr _ Hnth), renderCardOf_object.
  - intros index item Hnth Hitem. unfold mapIndexed.
    rewrite (mapFrom_nth _ 0 index arr _ Hnth).
    now rewrite renderCardOf_other, plainCard_standard.
  - intros index content.
    exists (Text.nl ++ "            " ++ "<div style=" ++ Text.dq ++ "padding: 15px; ").
    exists ("; border: 1px solid #e5e7eb; border-radius: 6px;" ++ Text.dq
            ++ ">" ++ Text.nl ++ "              "
            ++ Text.styled "div"
                 "margin-bottom: 8px; font-weight: 600; color: #6b7280; font-size: 13px;").
    unfold objectCard, cardBackground, Text.styled.
    destruct (Nat.eqb depth 0); rewrite !append_assoc; reflexivity.
Qed.

(** *** The title of a mapping *)

Lemma assoc_split {A : Type} (key : string) (entries : list (string * A))
  (a : A) :
  assoc key entries = Some a ->
  exists before after : list (string * A),
    entries = (before ++ (key, a) :: after)%list.
Proof.
  induction entries as [| [k x] entries IH]; [discriminate |].
  simpl. destruct (String.eqb k key) eqn:Hk.
  - intros [= ->]. apply String.eqb_eq in Hk as ->. now exists [], entries.
  - intros H. destruct (IH H) as (before & after & ->).
    now exists ((k, x) :: before), after.
Qed.

Lemma renderEntry_title (depth : nat) (text : string) :
  renderEntry depth ("title", VStr text)
  = fieldBlock (caption "Title") (emphasized text).
Proof. reflexivity. Qed.

Lemma generateHtmlFromData_titled
  (obj : list (string * value)) (text : string) (title : option string)
  (today : string) :
  assoc "title" obj = Some (VStr text) ->
  exists reportSubtitle : string,
    generateHtmlFromData (VObj obj) title today
    = Returns (pageHead text reportSubtitle
               ++ renderObject obj 0 ++ pageFoot today).
Proof.
  intros Htitle. unfold generateHtmlFromData, reportTitles.
  cbn [isObject readMember bind]. rewrite Htitle.
  destruct (isNonNullObject _) eqn:Hobj.
  - destruct (readMember_guarded _ "title" Hobj) as [found ->].
    eexists. reflexivity.
  - eexists. reflexivity.
Qed.

(** C10.  The title of a mapping whose [title] field is a string is in
    the assembled document twice: in the [h1] heading of the page header
    and, since the mapping renderer skips no key but [message] and
    [html_data], once more in the body, as the emphasized value of the
    field captioned "Title", at the place of the entry among the blocks
    of the other entries. *)
Theorem title_rendered_twice
  (obj : list (string * value)) (text : string) (title : option string)
  (today : string) :
  assoc "title" obj = Some (VStr text) ->
  exists (subtitle : string) (front back : list (string * value)),
    obj = (front ++ ("title", VStr text) :: back)%list
    /\ generateHtmlFromData (VObj obj) title today
       = Returns
           (Text.nl ++ "    "
            ++ Text.styled "div"
                 "font-family: 'Segoe UI', Tahoma, Geneva, Verdana, sans-serif; padding: 40px; color: #1f2937; max-width: 900px; margin: 0 auto; background-color: #ffffff;"
            ++ Text.nl ++ "      "
            ++ Text.nl ++ "      <!-- Header -->"
            ++ Text.nl ++ "      "
            ++ Text.styled "div"
                 "border-bottom: 2px solid #e5e7eb; padding-bottom: 20px; margin-bottom: 30px;"
            ++ Text.nl ++ "        "
            ++ Text.styled "h1"
                 "color: #111827; font-size: 28px; font-weight: 700; margin: 0 0 10px 0;"
            ++ text ++ "</h1>"
            ++ Text.nl ++ "        "
            ++ (if Text.truthy subtitle
                then Text.styled "p"
                       "color: #6b7280; font-size: 16px; margin: 0;"
                     ++ subtitle ++ "</p>"
                else "")
            ++ Text.nl ++ "      </div>"
            ++ Text.nl
            ++ Text.nl ++ "      <!-- Content -->"
            ++ Text.nl ++ "      "
            ++ Text.nl ++ "    "
            ++ Text.styled "div"
                 "display: flex; flex-direction: column; gap: 12px;"
            ++ Text.nl ++ "      "
            ++ Text.join (map (renderEntry 0) front)
            ++ Text.nl ++ "            <div>"
            ++ Text.nl ++ "              "
            ++ Text.styled "p"
                 "margin: 0 0 4px 0; color: #6b7280; font-size: 13px; text-transform: uppercase; letter-spacing: 0.5px; font-weight: 600;"
            ++ "Title" ++ "</p>"
            ++ Text.nl ++ "              "
            ++ Text.styled "p"
                 "margin: 0; font-weight: 600; color: #111827; line-height: 1.6;"
            ++ text ++ "</p>"
            ++ Text.nl ++ "            </div>" ++ Text.nl ++ "          "
            ++ Text.join (map (renderEntry 0) back)
            ++ Text.nl ++ "    </div>" ++ Text.nl ++ "  "
            ++ Text.nl
            ++ Text.nl ++ "      <!-- Footer -->"
            ++ Text.nl ++ "      "
            ++ Text.styled "div"
                 "margin-top: 50px; text-align: center; border-top: 1px solid #e5e7eb; padding-top: 20px;"
            ++ Text.nl ++ "        "
            ++ Text.styled "p" "color: #9ca3af; font-size: 12px;"
            ++ "Generated by AI Report Generator • " ++ today ++ "</p>"
            ++ Text.nl ++ "      </div>"
            ++ Text.nl ++ "    </div>"
            ++ Text.nl ++ "  ").
Proof.
  intros Htitle.
  destruct (generateHtmlFromData_titled obj text title today Htitle)
    as [subtitle Hdocument].
  destruct (assoc_split "title" obj _ Htitle) as (front & back & Hobj).
  exists subtitle, front, back. split; [exact Hobj |].
  rewrite Hdocument, Hobj.
  rewrite renderObject_entries by (now destruct front).
  rewrite fieldStack_filterBoolean, map_app. cbn [map].
  rewrite renderEntry_title. unfold fieldStack.
  rewrite join_app, join_cons.
  unfold pageHead, pageFoot, mainHeading, subtitleLine, fieldBlock, caption,
    emphasized.
  destruct (Text.truthy subtitle); rewrite !append_assoc; reflexivity.
Qed.

End Properties.

(** ** Key labels *)

Lemma upperChar_fixes (c : ascii) :
  Text.isUpperAZ c = true \/ Text.isLineTerminator c = true ->
  Text.upperChar c = c.
Proof.
  destruct c as [[] [] [] [] [] [] [] []]; vm_compute;
    intros [H | H]; try reflexivity; discriminate.
Qed.

(** The transform of the source and the one the specification words
    agree on every key. *)
Lemma titleCase_spec (key : string) : titleCase key = titleCaseSpec key.
Proof.
  destruct key as [| c r]; [reflexivity |].
  unfold titleCase, titleCaseSpec. cbn [spaceBeforeCapitals].
  destruct (Text.isUpperAZ c) eqn:Hupper.
  - cbn [spaceBeforeInnerCapitals upperFirst].
    rewrite (upperChar_fixes c) by now left.
    reflexivity.
  - cbn [capitalizeFirst spaceBeforeInnerCapitals upperFirst].
    destruct (Text.isLineTerminator c) eqn:Hline; [| reflexivity].
    rewrite (upperChar_fixes c) by now right.
    reflexivity.
Qed.

(** A key of the table maps to its entry. *)
Lemma formatKeyName_special (key label : string) :
  assoc key specialCases = Some label -> formatKeyName key = Own label.
Proof.
  intros H. unfold formatKeyName, readSpecialCase. rewrite H.
  assert (Hall : forallb (fun e => Text.truthy (snd e)) specialCases = true)
    by reflexivity.
  destruct (assoc_split key specialCases label H) as (front & back & Hsplit).
  rewrite Hsplit, forallb_app in Hall.
  apply andb_true_iff in Hall as [_ Hall]. cbn [forallb snd] in Hall.
  apply andb_true_iff in Hall as [Hlabel _].
  unfold slotTruthy. now rewrite Hlabel.
Qed.

(** A key that is neither in the table nor the name of a member of
    [Object.prototype] maps to its title-cased form. *)
Lemma formatKeyName_generic (key : string) :
  assoc key specialCases = None -> inTable key objectPrototype = false ->
  formatKeyName key = Own (titleCaseSpec key).
Proof.
  intros Hmiss Hproto. unfold formatKeyName, readSpecialCase.
  now rewrite Hmiss, Hproto, titleCase_spec.
Qed.

Lemma formatKeyName_hazardId :
  formatKeyName "hazardId" = Own "Hazard ID".
Proof. reflexivity. Qed.

(** C5, where the code departs from it.  The key [constructor] is not in
    the table, so the claim has it title-cased to "Constructor"; the
    lookup finds the member every object inherits under that name, and the
    label printed for an entry under this key is the source text of a
    built-in function. *)
Theorem formatKeyName_inherited_member :
  assoc "constructor" specialCases = None
  /\ titleCaseSpec "constructor" = "Constructor"
  /\ formatKeyName "constructor" = Builtin "constructor"
  /\ interpolate (formatKeyName "constructor")
     = "function Object() { [native code] }"
  /\ renderEntry natToString natIsFinite 0 ("constructor", VStr "x")
     = fieldBlock (caption "function Object() { [native code] }")
                  (standard "x").
Proof. repeat split. Qed.

(** ** Properties of the code-fence stripping *)

Import CapaGenerator.

(** *** Prefixes and white space *)

Lemma prefix_cons (c d : ascii) (a b : string) :
  prefix (String c a) (String d b) = Ascii.eqb c d && prefix a b.
Proof.
  simpl. destruct (ascii_dec c d) as [-> | Hneq].
  - now rewrite Ascii.eqb_refl.
  - apply Ascii.eqb_neq in Hneq. now rewrite Hneq.
Qed.

Lemma prefix_app (a b : string) : prefix a (a ++ b) = true.
Proof.
  induction a as [| c a IH]; [now destruct b |].
  cbn [append]. now rewrite prefix_cons, Ascii.eqb_refl.
Qed.

Lemma skip_app (a b : string) : skip (String.length a) (a ++ b) = b.
Proof. induction a as [| c a IH]; [now destruct b | exact IH]. Qed.

Lemma includes_suffix (a s needle : string) :
  Text.includes (a ++ s) needle = false -> prefix needle s = false.
Proof.
  induction a as [| c a IH].
  - destruct s; simpl; intros H; apply orb_false_iff in H; tauto.
  - cbn [append Text.includes]. intros H.
    apply orb_false_iff in H as [_ H]. now apply IH.
Qed.

Lemma whiteSpace_not_fence (c : ascii) (r : string) :
  Text.isWhiteSpace c = true -> prefix fence (String c r) = false.
Proof.
  intros H. unfold fence. rewrite prefix_cons.
  destruct c as [[] [] [] [] [] [] [] []]; try discriminate H; reflexivity.
Qed.

Lemma trimStart_headSolid (s : string) : Text.headSolid (Text.trimStart s) = true.
Proof.
  induction s as [| c r IH]; [reflexivity |].
  simpl. destruct (Text.isWhiteSpace c) eqn:Hc; [exact IH |].
  simpl. now rewrite Hc.
Qed.

Lemma headSolid_trimStart (s : string) :
  Text.headSolid s = true -> Text.trimStart s = s.
Proof.
  destruct s as [| c r]; [reflexivity |]. simpl.
  now destruct (Text.isWhiteSpace c).
Qed.

Lemma trimStart_app (s x : string) :
  Text.trimStart s <> "" -> Text.trimStart (s ++ x) = Text.trimStart s ++ x.
Proof.
  induction s as [| c r IH]; [simpl; congruence |].
  cbn [append Text.trimStart].
  destruct (Text.isWhiteSpace c); [exact IH | reflexivity].
Qed.

Lemma trimStart_blank_app (w x : string) :
  Text.trimStart w = "" -> Text.trimStart (w ++ x) = Text.trimStart x.
Proof.
  induction w as [| c r IH]; [reflexivity |].
  cbn [append Text.trimStart].
  destruct (Text.isWhiteSpace c); [exact IH | discriminate].
Qed.

Lemma trimStart_suffix (s : string) :
  exists w : string, s = w ++ Text.trimStart s.
Proof.
  induction s as [| c r [w IH]]; [now exists "" |].
  simpl. destruct (Text.isWhiteSpace c).
  - exists (String c w). simpl. now rewrite <- IH.
  - now exists "".
Qed.

Lemma trimEnd_cons (c : ascii) (r : string) :
  Text.trimEnd (String c r)
  = match Text.trimEnd r with
    | EmptyString =>
        if Text.isWhiteSpace c then EmptyString else String c EmptyString
    | String d r' => String c (String d r')
    end.
Proof. reflexivity. Qed.

Lemma trimEnd_tail (s : string) :
  exists w : string, s = Text.trimEnd s ++ w /\ Text.trimStart w = "".
Proof.
  induction s as [| c r (w & IH & Hw)]; [now exists "" |].
  rewrite trimEnd_cons. destruct (Text.trimEnd r) as [| d r'].
  - simpl in IH. subst w. destruct (Text.isWhiteSpace c) eqn:Hc.
    + exists (String c r). simpl. now rewrite Hc.
    + now exists r.
  - exists w. split; [| exact Hw]. simpl. now rewrite IH at 1.
Qed.

Lemma trimEnd_idempotent (s : string) :
  Text.trimEnd (Text.trimEnd s) = Text.trimEnd s.
Proof.
  induction s as [| c r IH]; [reflexivity |].
  rewrite trimEnd_cons. destruct (Text.trimEnd r) as [| d r'] eqn:Hr.
  - destruct (Text.isWhiteSpace c) eqn:Hc; [reflexivity |].
    simpl. now rewrite Hc.
  - rewrite trimEnd_cons, IH. reflexivity.
Qed.

Lemma trimEnd_headSolid (s : string) :
  Text.headSolid s = true -> Text.headSolid (Text.trimEnd s) = true.
Proof.
  destruct s as [| c r]; [reflexivity |].
  rewrite trimEnd_cons. cbn [Text.headSolid]. intros Hc.
  destruct (Text.trimEnd r); [| exact Hc].
  destruct (Text.isWhiteSpace c) eqn:Hws; [discriminate |].
  cbn [Text.headSolid]. now rewrite Hws.
Qed.

Lemma trim_idempotent (s : string) : Text.trim (Text.trim s) = Text.trim s.
Proof.
  unfold Text.trim.
  rewrite (headSolid_trimStart (Text.trimEnd (Text.trimStart s))).
  - apply trimEnd_idempotent.
  - apply trimEnd_headSolid, trimStart_headSolid.
Qed.

Lemma trimStart_blank_trimEnd (s : string) :
  Text.trimStart s = "" -> Text.trimEnd s = "".
Proof.
  induction s as [| c r IH]; [reflexivity |].
  simpl. destruct (Text.isWhiteSpace c); [| discriminate].
  intros H. now rewrite (IH H).
Qed.

Lemma trimEnd_fixed_suffix (a b : string) :
  Text.trimEnd (a ++ b) = a ++ b -> b <> "" -> Text.trimEnd b = b.
Proof.
  induction a as [| c a IH]; [easy |].
  cbn [append]. rewrite trimEnd_cons. intros H Hb.
  destruct (Text.trimEnd (a ++ b)) as [| d r'] eqn:Hr.
  - exfalso. destruct (Text.isWhiteSpace c); [discriminate |].
    injection H as H. destruct a; [| discriminate]. simpl in H. congruence.
  - injection H as H. now apply IH.
Qed.

(** *** The matcher *)

Lemma matchPieces_greedy (class : ascii -> bool) (rest : list piece)
  (s captured : string) :
  matchPieces (Greedy class :: rest) s captured
  = match s with
    | EmptyString => matchPieces rest s captured
    | String c r =>
        if class c
        then orElse (matchPieces (Greedy class :: rest) r captured)
                    (matchPieces rest s captured)
        else matchPieces rest s captured
    end.
Proof. now destruct s. Qed.

Lemma matchPieces_lazy (class : ascii -> bool) (rest : list piece)
  (s captured : string) :
  matchPieces (LazyGroup class :: rest) s captured
  = orElse (matchPieces rest s captured)
           match s with
           | EmptyString => None
           | String c r =>
               if class c
               then matchPieces (LazyGroup class :: rest) r
                      (captured ++ String c EmptyString)
               else None
           end.
Proof. now destruct s. Qed.

Lemma matchPieces_literal (text : string) (rest : list piece)
  (s captured : string) :
  matchPieces (Literal text :: rest) s captured
  = if prefix text s
    then matchPieces rest (skip (String.length text) s) captured
    else None.
Proof. reflexivity. Qed.

Lemma matchFirst_here (pattern : list piece) (s group : string) :
  matchPieces pattern s "" = Some group ->
  matchFirst pattern s = Some group.
Proof. intros H. destruct s; simpl; now rewrite H. Qed.

(** A greedy run of white space ends up past all of it when the rest of
    the pattern matches there. *)
Lemma greedy_whiteSpace_skips (rest : list piece) (s captured group : string) :
  matchPieces rest (Text.trimStart s) captured = Some group ->
  matchPieces (Greedy Text.isWhiteSpace :: rest) s captured = Some group.
Proof.
  induction s as [| c r IH]; rewrite matchPieces_greedy; [easy |].
  cbn [Text.trimStart]. destruct (Text.isWhiteSpace c); [| easy].
  intros H. now rewrite (IH H).
Qed.

Lemma closing_match (s captured : string) :
  matchPieces [Greedy Text.isWhiteSpace; Literal fence] s captured
  = if closes s then Some captured else None.
Proof.
  unfold closes. induction s as [| c r IH]; [reflexivity |].
  rewrite matchPieces_greedy. cbn [Text.trimStart].
  destruct (Text.isWhiteSpace c) eqn:Hc.
  - rewrite IH. cbn [matchPieces].
    rewrite (whiteSpace_not_fence c r Hc).
    now destruct (prefix fence (Text.trimStart r)).
  - cbn [matchPieces]. now destruct (prefix fence (String c r)).
Qed.

(** The lazy group takes the shortest text after which the closing part
    matches. *)
Lemma lazy_group_shortest (text rest captured : string) :
  closes rest = true ->
  (forall a b : string, text = a ++ b -> b <> "" ->
     closes (b ++ rest) = false) ->
  matchPieces [LazyGroup anyChar; Greedy Text.isWhiteSpace; Literal fence]
    (text ++ rest) captured
  = Some (captured ++ text).
Proof.
  intros Hrest. revert captured.
  induction text as [| c text IH]; intros captured Hshort;
    rewrite matchPieces_lazy, closing_match.
  - cbn [append]. now rewrite Hrest, append_empty_r.
  - rewrite (Hshort "" (String c text)) by easy.
    cbn [append orElse anyChar]. rewrite IH.
    + now rewrite append_assoc.
    + intros a b -> Hb. now apply (Hshort (String c a) b).
Qed.

(** A fence cannot start inside [text] when none occurs in [text]
    followed by two backquotes. *)
Lemma no_fence_inside (b y : string) :
  b <> "" -> prefix fence (b ++ "``") = false ->
  prefix fence (b ++ y) = false.
Proof.
  unfold fence. intros Hb.
  destruct b as [| c1 [| c2 [| c3 b]]]; [congruence | | |];
    cbn [append]; rewrite ?prefix_cons; intros H.
  - destruct (Ascii.eqb "`" c1); [vm_compute in H; discriminate | reflexivity].
  - destruct (Ascii.eqb "`" c1); [| reflexivity].
    destruct (Ascii.eqb "`" c2); [vm_compute in H; discriminate | reflexivity].
  - destruct (Ascii.eqb "`" c1); [| reflexivity].
    destruct (Ascii.eqb "`" c2); [| reflexivity].
    destruct (Ascii.eqb "`" c3); [| reflexivity].
    cbn [andb] in *. destruct b; cbn [append prefix] in *; congruence.
Qed.

Lemma inner_suffix_open (text blank : string) :
  Text.trimEnd text = text ->
  Text.includes (text ++ "``") fence = false ->
  forall a b : string, text = a ++ b -> b <> "" ->
    closes (b ++ blank ++ fence) = false.
Proof.
  intros Hend Hfree a b -> Hb. unfold closes.
  assert (Hsolid : Text.trimStart b <> "").
  { intros Hblank. apply trimStart_blank_trimEnd in Hblank.
    rewrite (trimEnd_fixed_suffix a b Hend Hb) in Hblank. congruence. }
  rewrite (trimStart_app b _ Hsolid).
  apply no_fence_inside; [exact Hsolid |].
  destruct (trimStart_suffix b) as [w Hw].
  apply (includes_suffix (a ++ w)).
  rewrite Hw, <- !append_assoc in Hfree. now rewrite <- append_assoc.
Qed.

Lemma trimEnd_blank_trimStart (s : string) :
  Text.trimEnd s = "" -> Text.trimStart s = "".
Proof.
  induction s as [| c r IH]; [reflexivity |].
  rewrite trimEnd_cons. cbn [Text.trimStart].
  destruct (Text.trimEnd r); [| discriminate].
  destruct (Text.isWhiteSpace c); [intros _; now apply IH | discriminate].
Qed.

Lemma trim_blank (s : string) : Text.trim s = "" -> Text.trimStart s = "".
Proof.
  unfold Text.trim. intros H. apply trimEnd_blank_trimStart in H.
  now rewrite (headSolid_trimStart _ (trimStart_headSolid s)) in H.
Qed.

Lemma includes_openingFence (rest : string) :
  Text.truthy (openingFence ++ rest)
  && Text.includes (openingFence ++ rest) openingFence = true.
Proof.
  assert (Hprefix : prefix openingFence (openingFence ++ rest) = true)
    by apply prefix_app.
  cbn [openingFence append Text.includes Text.truthy andb] in *.
  now rewrite Hprefix.
Qed.

(** The match of the pattern on a fenced string, at its start: the group
    is the trimmed inner content, when that holds no fence of its own. *)
Lemma fencePattern_fenced (inner : string) :
  Text.includes (Text.trim inner ++ "``") fence = false ->
  matchFirst fencePattern (openingFence ++ inner ++ fence)
  = Some (Text.trim inner).
Proof.
  intros Hfree. apply matchFirst_here.
  unfold fencePattern. rewrite matchPieces_literal, prefix_app, skip_app.
  apply greedy_whiteSpace_skips.
  destruct (string_dec (Text.trimStart inner) "") as [Hstart | Hsolid].
  - rewrite (trimStart_blank_app inner fence Hstart).
    unfold Text.trim. now rewrite Hstart.
  - rewrite (trimStart_app inner fence Hsolid).
    destruct (trimEnd_tail (Text.trimStart inner)) as (blank & Hsplit & Hblank).
    fold (Text.trim inner) in Hsplit. rewrite Hsplit, append_assoc.
    apply (lazy_group_shortest (Text.trim inner) (blank ++ fence) "").
    + unfold closes. now rewrite (trimStart_blank_app blank fence Hblank).
    + apply inner_suffix_open; [| exact Hfree].
      apply trimEnd_idempotent.
Qed.

(** *** The stripping step *)


(** ** The model on sample inputs *)

Example formatKeyName_samples :
  map (fun key => interpolate (formatKeyName key))
      ["hazardId"; "notes"; "rootCause"; "Status"; "html_data"]
  = ["Hazard ID"; "Notes"; "Root Cause"; "Status"; "HTML Data"].
Proof. reflexivity. Qed.

Example isHighlightKey_samples :
  map isHighlightKey ["riskRating"; "notes"; "Title"; "correctiveActions"; ""]
  = [true; false; true; true; false].
Proof. reflexivity. Qed.

Example ensureString_nested :
  ensureString natToString natIsFinite
    (VArr [VNum 7; VStr "a b"; VNull; VUndefined;
           VObj [("k", VBool true); ("u", VUndefined)]])
  = "[7," ++ Text.dq ++ "a b" ++ Text.dq ++ ",null,null,{"
    ++ Text.dq ++ "k" ++ Text.dq ++ ":true}]".
Proof. reflexivity. Qed.

Example readMember_null_throws :
  readMember (VNull : value nat) "title"
  = Throws "TypeError: cannot read properties of null".
Proof. reflexivity. Qed.

Example bulletList_sample :
  renderArray natToString natIsFinite [VStr "a"; VNum 2] None 0
  = bulletList natToString natIsFinite [VStr "a"; VNum 2].
Proof. reflexivity. Qed.

Example stripCodeFence_samples :
  map stripCodeFence
      ["<p>plain</p>"; "```html <p>a</p>"; "```html```";
       "note ```html <p>a</p> ``` end"; "```html a```b```"]
  = ["<p>plain</p>"; "```html <p>a</p>"; "```html```"; "<p>a</p>"; "a"].
Proof. reflexivity. Qed.

(** ** The properties at concrete inputs *)

(** [ensureArray] on a string, which is neither a sequence nor absent. *)
Lemma ensureArray_idempotent_witness :
  isArray (VStr "a" : value nat) = false
  /\ ensureArray (VStr "a" : value nat) = [VStr "a"].
Proof.
  split; [reflexivity |].
  apply (ensureArray_idempotent (VStr "a" : value nat));
    [reflexivity | discriminate | discriminate].
Defined.

(** A mapping with a reserved key first: only the other field is rendered. *)
Lemma renderObject_skips_reserved_witness :
  [("message", VStr "ok"); ("notes", VStr "n")] <> ([] : list (string * value nat))
  /\ renderObject natToString natIsFinite
       [("message", VStr "ok"); ("notes", VStr "n")] 0
     = fieldStack [fieldBlock (caption "Notes") (standard "n")].
Proof.
  split; [discriminate |].
  apply (renderObject_skips_reserved natToString natIsFinite
           [("message", VStr "ok"); ("notes", VStr "n")] 0).
  discriminate.
Defined.

(** C3 as stated fails on a mapping with keys that are array indices: put
    in under [b], [1], [a], [0] in that order, its entries are rendered
    in the order [0], [1], [b], [a], not in the order of insertion. *)
Lemma renderObject_index_keys_first :
  map fst
    (objectEntries
       [("b", (VStr "x" : value nat)); ("1", VStr "y"); ("a", VStr "z");
        ("0", VStr "w")])
  = ["0"; "1"; "b"; "a"]
  /\ renderObject natToString natIsFinite
       (objectEntries
          [("b", VStr "x"); ("1", VStr "y"); ("a", VStr "z"); ("0", VStr "w")])
       0
     = fieldStack [fieldBlock (caption "0") (standard "w");
                   fieldBlock (caption "1") (standard "y");
                   fieldBlock (caption "B") (standard "x");
                   fieldBlock (caption "A") (standard "z")]
  /\ renderObject natToString natIsFinite
       (objectEntries
          [("b", VStr "x"); ("1", VStr "y"); ("a", VStr "z"); ("0", VStr "w")])
       0
     <> fieldStack [fieldBlock (caption "B") (standard "x");
                    fieldBlock (caption "1") (standard "y");
                    fieldBlock (caption "A") (standard "z");
                    fieldBlock (caption "0") (standard "w")].
Proof.
  split; [reflexivity |]. split; [reflexivity |].
  vm_compute. discriminate.
Qed.

(** A mapping of one reserved key and one absent value. *)
Lemma renderObject_silent_entries_witness :
  forallb silent [("message", VStr "done"); ("n", (VNull : value nat))] = true
  /\ renderObject natToString natIsFinite
       [("message", VStr "done"); ("n", VNull)] 0
     = fieldStack [].
Proof.
  split; [reflexivity |].
  apply (renderObject_silent_entries natToString natIsFinite
           [("message", VStr "done"); ("n", VNull)] 0).
  reflexivity.
Defined.

(** C4 as stated fails on the mapping whose one entry is under a reserved
    key: its entry produces nothing, and it does not render as the
    placeholder. *)
Lemma renderObject_reserved_only_not_placeholder :
  forallb silent [("message", (VStr "done" : value nat))] = true
  /\ renderEntry natToString natIsFinite 0 ("message", VStr "done") = ""
  /\ renderObject natToString natIsFinite [("message", VStr "done")] 0
     <> placeholder.
Proof. repeat split. discriminate. Qed.

(** A sequence of one mapping and one primitive. *)
Lemma renderArray_card_stack_witness :
  forallb isPrimitive [VObj []; (VStr "x" : value nat)] = false
  /\ renderArray natToString natIsFinite [VObj []; VStr "x"] None 0
     = cardStack [objectCard 0 0 placeholder;
                  plainCard natToString natIsFinite (VStr "x")].
Proof.
  split; [reflexivity |].
  apply (renderArray_card_stack natToString natIsFinite
           [VObj []; VStr "x"] None 0); [discriminate | reflexivity].
Defined.

(** C7 as stated fails twice.  In a mixed sequence the block of an
    element that is not an object carries no ordinal label: the second
    element of the sequence below has no "Item 2".  And the background of
    a card does not go by the parity of the depth: depths 0 and 2 differ,
    depths 1 and 2 agree. *)
Lemma renderArray_mixed_unlabelled :
  forallb isPrimitive [VObj []; (VStr "x" : value nat)] = false
  /\ Text.includes
       (renderArray natToString natIsFinite [VObj []; VStr "x"] None 0)
       "Item 1" = true
  /\ Text.includes
       (renderArray natToString natIsFinite [VObj []; VStr "x"] None 0)
       "Item 2" = false
  /\ renderArray natToString natIsFinite [VObj []] None 0
     <> renderArray natToString natIsFinite [VObj []] None 2
  /\ renderArray natToString natIsFinite [VObj []] None 1
     = renderArray natToString natIsFinite [VObj []] None 2.
Proof.
  split; [reflexivity |]. split; [vm_compute; reflexivity |].
  split; [vm_compute; reflexivity |]. split; [| reflexivity].
  vm_compute. discriminate.
Qed.



(** The report of the specification, with a title and hazard details. *)
Lemma title_rendered_twice_witness :
  assoc "title"
    [("title", (VStr "Forklift Hazard" : value nat));
     ("hazardDetails", VObj [("title", VStr "Near Miss")])]
  = Some (VStr "Forklift Hazard")
  /\
  exists (subtitle : string) (front back : list (string * value nat)),
    
      ([("title", VStr "Forklift Hazard");
     ("hazardDetails", VObj [("title", VStr "Near Miss")])] : list (string * value nat))
      = (front ++ ("title", VStr "Forklift Hazard") :: back)%list
    /\ generateHtmlFromData natToString natIsFinite
         (VObj [("title", VStr "Forklift Hazard");
              ("hazardDetails", VObj [("title", VStr "Near Miss")])])
         None "11/3/2026"
       = Returns
           (Text.nl ++ "    "
            ++ Text.styled "div"
                 "font-family: 'Segoe UI', Tahoma, Geneva, Verdana, sans-serif; padding: 40px; color: #1f2937; max-width: 900px; margin: 0 auto; background-color: #ffffff;"
            ++ Text.nl ++ "      "
            ++ Text.nl ++ "      <!-- Header -->"
            ++ Text.nl ++ "      "
            ++ Text.styled "div"
                 "border-bottom: 2px solid #e5e7eb; padding-bottom: 20px; margin-bottom: 30px;"
            ++ Text.nl ++ "        "
            ++ Text.styled "h1"
                 "color: #111827; font-size: 28px; font-weight: 700; margin: 0 0 10px 0;"
            ++ "Forklift Hazard" ++ "</h1>"
            ++ Text.nl ++ "        "
            ++ (if Text.truthy subtitle
                then Text.styled "p"
                       "color: #6b7280; font-size: 16px; margin: 0;"
                     ++ subtitle ++ "</p>"
                else "")
            ++ Text.nl ++ "      </div>"
            ++ Text.nl
            ++ Text.nl ++ "      <!-- Content -->"
            ++ Text.nl ++ "      "
            ++ Text.nl ++ "    "
            ++ Text.styled "div"
                 "display: flex; flex-direction: column; gap: 12px;"
            ++ Text.nl ++ "      "
            ++ Text.join (map (renderEntry natToString natIsFinite 0) front)
            ++ Text.nl ++ "            <div>"
            ++ Text.nl ++ "              "
            ++ Text.styled "p"
                 "margin: 0 0 4px 0; color: #6b7280; font-size: 13px; text-transform: uppercase; letter-spacing: 0.5px; font-weight: 600;"
            ++ "Title" ++ "</p>"
            ++ Text.nl ++ "              "
            ++ Text.styled "p"
                 "margin: 0; font-weight: 600; color: #111827; line-height: 1.6;"
            ++ "Forklift Hazard" ++ "</p>"
            ++ Text.nl ++ "            </div>" ++ Text.nl ++ "          "
            ++ Text.join (map (renderEntry natToString natIsFinite 0) back)
            ++ Text.nl ++ "    </div>" ++ Text.nl ++ "  "
            ++ Text.nl
            ++ Text.nl ++ "      <!-- Footer -->"
            ++ Text.nl ++ "      "
            ++ Text.styled "div"
                 "margin-top: 50px; text-align: center; border-top: 1px solid #e5e7eb; padding-top: 20px;"
            ++ Text.nl ++ "        "
            ++ Text.styled "p" "color: #9ca3af; font-size: 12px;"
            ++ "Generated by AI Report Generator • " ++ "11/3/2026" ++ "</p>"
            ++ Text.nl ++ "      </div>"
            ++ Text.nl ++ "    </div>"
            ++ Text.nl ++ "  ").
Proof.
  split; [reflexivity |].
  apply (title_rendered_twice natToString natIsFinite
           [("title", VStr "Forklift Hazard");
            ("hazardDetails", VObj [("title", VStr "Near Miss")])]
           "Forklift Hazard" None "11/3/2026").
  reflexivity.
Defined.

(** ** Further properties of the report generator *)

Section FurtherProperties.

Context {number : Type}.
Variable numberToString : number -> string.
Variable numberIsFinite : number -> bool.

Local Abbreviation value := (value number).
Local Abbreviation ensureString := (ensureString numberToString numberIsFinite).
Local Abbreviation renderPrimitive :=
  (renderPrimitive numberToString numberIsFinite).
Local Abbreviation renderNode := (renderNode numberToString numberIsFinite).
Local Abbreviation renderArray := (renderArray numberToString numberIsFinite).
Local Abbreviation renderObject := (renderObject numberToString numberIsFinite).
Local Abbreviation renderEntry := (renderEntry numberToString numberIsFinite).
Local Abbreviation renderCardOf := (renderCardOf numberToString numberIsFinite).
Local Abbreviation plainCard := (plainCard numberToString numberIsFinite).
Local Abbreviation listItem := (listItem numberToString numberIsFinite).
Local Abbreviation bulletList := (bulletList numberToString numberIsFinite).
Local Abbreviation bodyContent := (bodyContent numberToString numberIsFinite).
Local Abbreviation generateHtmlFromData :=
  (generateHtmlFromData numberToString numberIsFinite).

(** *** The depth *)

Lemma cardBackground_nested (depth depth' : nat) :
  0 < depth -> 0 < depth' -> cardBackground depth = cardBackground depth'.
Proof.
  intros H H'. unfold cardBackground.
  destruct depth; [lia |]. destruct depth'; [lia |]. reflexivity.
Qed.

Lemma mapFrom_ext {A B : Type} (f g : A -> nat -> B) (start : nat)
  (l : list A) :
  Forall (fun x => forall index, f x index = g x index) l ->
  mapFrom f start l = mapFrom g start l.
Proof.
  intros H. revert start. induction H as [| x l Hx _ IH]; intros start;
    [reflexivity |].
  simpl. now rewrite Hx, IH.
Qed.

Lemma renderNode_nested (v : value) :
  forall depth depth' : nat, 0 < depth -> 0 < depth' ->
    renderNode v depth = renderNode v depth'.
Proof.
  induction v as [| | b | n | s | arr IH | obj IH] using value_induction;
    intros depth depth' Hd Hd'; try reflexivity.
  - rewrite !renderNode_array.
    destruct arr as [| first rest] eqn:Harr; [reflexivity |].
    rewrite <- Harr in *.
    assert (Hne : arr <> []) by (rewrite Harr; discriminate).
    destruct (forallb isPrimitive arr) eqn:Hprim.
    + now rewrite !renderArray_primitives.
    + rewrite !renderArray_cards by assumption. f_equal.
      apply mapFrom_ext. revert IH. apply Forall_impl.
      intros item IHitem index. destruct item; try reflexivity.
      rewrite !renderCardOf_object, <- !renderNode_object.
      rewrite (IHitem (depth + 1) (depth' + 1)) by lia.
      unfold objectCard. now rewrite (cardBackground_nested depth depth').
  - rewrite !renderNode_object.
    destruct obj as [| first rest] eqn:Hobj; [reflexivity |].
    rewrite <- Hobj in *.
    assert (Hne : obj <> []) by (rewrite Hobj; discriminate).
    rewrite !renderObject_entries by assumption. do 2 f_equal.
    apply map_ext_Forall. revert IH. apply Forall_impl.
    intros [key v] IHv. cbn [snd] in IHv.
    destruct (isReserved key) eqn:Hkey;
      [now rewrite !renderEntry_reserved |].
    destruct v; try reflexivity.
    + rewrite !renderEntry_array by easy. cbn [ensureArray].
      change (renderArray items (Some key) depth)
        with (renderNode (VArr items) depth).
      change (renderArray items (Some key) depth')
        with (renderNode (VArr items) depth').
      now rewrite (IHv depth depth').
    + rewrite !renderEntry_object by easy. rewrite <- !renderNode_object.
      now rewrite (IHv (depth + 1) (depth' + 1)) by lia.
Qed.

(** X1.  Below the top level the depth has no effect: a mapping, and a
    sequence, renders to the same markup at any two depths greater than
    zero. *)
Theorem render_depth_beyond_top (depth depth' : nat) :
  0 < depth -> 0 < depth' ->
  (forall obj : list (string * value),
     renderObject obj depth = renderObject obj depth')
  /\ (forall (arr : list value) (key : option string),
        renderArray arr key depth = renderArray arr key depth').
Proof.
  intros Hd Hd'. split.
  - intros obj. rewrite <- !renderNode_object. now apply renderNode_nested.
  - intros arr key.
    change (renderNode (VArr arr) depth = renderNode (VArr arr) depth').
    now apply renderNode_nested.
Qed.

(** *** Sequences of primitive values *)

Lemma map_nth_error_some {A B : Type} (f : A -> B) (l : list A)
  (index : nat) (x : A) :
  nth_error l index = Some x -> nth_error (map f l) index = Some (f x).
Proof.
  revert index. induction l as [| y l IH]; intros [| index]; simpl;
    try discriminate.
  - now intros [= ->].
  - apply IH.
Qed.

(** X2.  A non-empty sequence of primitive values renders as a bulleted
    list with one item per element, in the order of the sequence, each
    item holding the string form of its element; neither the depth nor
    the key has any effect on it. *)
Theorem renderArray_bulleted_list
  (arr : list value) (key key' : option string) (depth depth' : nat) :
  arr <> [] -> forallb isPrimitive arr = true ->
  renderArray arr key depth
  = Text.nl ++ "      "
    ++ Text.styled "ul" "padding-left: 20px; margin: 8px 0; line-height: 1.8;"
    ++ Text.nl ++ "        " ++ Text.join (map listItem arr)
    ++ Text.nl ++ "      </ul>" ++ Text.nl ++ "    "
  /\ List.length (map listItem arr) = List.length arr
  /\ (forall (index : nat) (item : value),
        nth_error arr index = Some item ->
        nth_error (map listItem arr) index
        = Some (Text.styled "li" "margin-bottom: 6px; color: #4b5563;"
                ++ ensureString item ++ "</li>"))
  /\ renderArray arr key depth = renderArray arr key' depth'.
Proof.
  intros Hne Hprim. rewrite !renderArray_primitives by assumption.
  split; [reflexivity |]. split; [apply length_map |].
  split; [| reflexivity].
  intros index item Hnth.
  now rewrite (map_nth_error_some listItem arr index item Hnth).
Qed.

(** *** Strings are displayed as they are *)

Lemma occurs_refl (s : string) : occurs s s.
Proof. exists "", "". now rewrite append_empty_r. Qed.

Lemma occurs_trans (a b c : string) : occurs a b -> occurs b c -> occurs a c.
Proof.
  intros (x & y & ->) (u & w & ->). exists (u ++ x), (y ++ w).
  now rewrite !append_assoc.
Qed.

Lemma occurs_between (before s after : string) :
  occurs s (before ++ s ++ after).
Proof. now exists before, after. Qed.

Lemma occurs_join (part : string) (parts : list string) :
  In part parts -> occurs part (Text.join parts).
Proof.
  induction parts as [| first parts IH]; [easy |].
  rewrite join_cons. intros [-> | Hin].
  - exists "", (Text.join parts). reflexivity.
  - destruct (IH Hin) as (x & y & ->). exists (first ++ x), y.
    now rewrite !append_assoc.
Qed.

Lemma mapFrom_In {A B : Type} (f : A -> nat -> B) (start : nat)
  (l : list A) (x : A) :
  In x l -> exists index : nat, In (f x index) (mapFrom f start l).
Proof.
  revert start. induction l as [| y l IH]; intros start; [easy |].
  intros [-> | Hin].
  - exists start. now left.
  - destruct (IH (S start) Hin) as [index Hindex]. exists index. now right.
Qed.

Lemma occurs_standard (text : string) : occurs text (standard text).
Proof. unfold standard. apply occurs_between. Qed.

Lemma occurs_emphasized (text : string) : occurs text (emphasized text).
Proof. unfold emphasized. apply occurs_between. Qed.

Lemma occurs_renderPrimitive (text : string) (key : option string) :
  occurs text (renderPrimitive (VStr text) key).
Proof.
  unfold renderPrimitive. cbn [ensureString].
  match goal with |- context [if ?b then _ else _] => destruct b end;
    [apply occurs_emphasized | apply occurs_standard].
Qed.

Lemma occurs_listItem (text : string) : occurs text (listItem (VStr text)).
Proof. unfold listItem. apply occurs_between. Qed.

Lemma occurs_plainCard (text : string) : occurs text (plainCard (VStr text)).
Proof.
  rewrite plainCard_standard. cbn [ensureString].
  eapply occurs_trans; [apply occurs_standard | apply occurs_between].
Qed.

Lemma occurs_fieldBlock (heading content : string) :
  occurs content (fieldBlock heading content).
Proof.
  unfold fieldBlock.
  exists (Text.nl ++ "            <div>" ++ Text.nl ++ "              "
          ++ heading ++ Text.nl ++ "              ").
  eexists. rewrite !append_assoc. reflexivity.
Qed.

Lemma occurs_objectCard (depth index : nat) (content : string) :
  occurs content (objectCard depth index content).
Proof.
  unfold objectCard.
  exists (Text.nl ++ "            "
          ++ Text.styled "div"
               ("padding: 15px; background-color: " ++ cardBackground depth
                ++ "; border: 1px solid #e5e7eb; border-radius: 6px;")
          ++ Text.nl ++ "              "
          ++ Text.styled "div"
               "margin-bottom: 8px; font-weight: 600; color: #6b7280; font-size: 13px;"
          ++ "Item " ++ Text.ofNat (index + 1) ++ "</div>"
          ++ Text.nl ++ "              ").
  eexists. rewrite !append_assoc. reflexivity.
Qed.

Lemma occurs_stack (open close part : string) (parts : list string) :
  In part parts -> occurs part (open ++ Text.join parts ++ close).
Proof.
  intros Hin. eapply occurs_trans; [apply (occurs_join _ _ Hin) |].
  apply occurs_between.
Qed.

Lemma occurs_cardStack (card : string) (cards : list string) :
  In card cards -> occurs card (cardStack cards).
Proof.
  intros Hin. unfold cardStack.
  eapply occurs_trans; [apply (occurs_join _ _ Hin) |].
  eexists (Text.nl ++ "    " ++ Text.styled "div" _ ++ Text.nl ++ "      ").
  eexists. rewrite !append_assoc. reflexivity.
Qed.

Lemma occurs_fieldStack (block : string) (blocks : list string) :
  In block blocks -> occurs block (fieldStack blocks).
Proof.
  intros Hin. unfold fieldStack.
  eapply occurs_trans; [apply (occurs_join _ _ Hin) |].
  eexists (Text.nl ++ "    " ++ Text.styled "div" _ ++ Text.nl ++ "      ").
  eexists. rewrite !append_assoc. reflexivity.
Qed.

Lemma occurs_bulletList (item : value) (arr : list value) :
  In item arr -> occurs (listItem item) (bulletList arr).
Proof.
  intros Hin. unfold bulletList.
  eapply occurs_trans;
    [apply (occurs_join _ _ (in_map listItem arr item Hin)) |].
  eexists (Text.nl ++ "      " ++ Text.styled "ul" _ ++ Text.nl ++ "        ").
  eexists. rewrite !append_assoc. reflexivity.
Qed.

Lemma renderNode_shows (text : string) (v : value) :
  shown text v -> forall depth : nat, occurs text (renderNode v depth).
Proof.
  induction 1 as [arr Hin | arr obj Hin _ IH | obj key Hkey Hin
                 | obj key v Hkey Hin Hv _ IH]; intros depth.
  - change (occurs text (renderArray arr None depth)).
    assert (Hne : arr <> []) by (intros ->; easy).
    destruct (forallb isPrimitive arr) eqn:Hprim.
    + rewrite renderArray_primitives by assumption.
      eapply occurs_trans; [apply occurs_listItem |].
      now apply occurs_bulletList.
    + rewrite renderArray_cards by assumption.
      destruct (mapFrom_In (renderCardOf depth) 0 arr _ Hin) as [index Hcard].
      eapply occurs_trans; [| apply (occurs_cardStack _ _ Hcard)].
      rewrite renderCardOf_other by reflexivity. apply occurs_plainCard.
  - change (occurs text (renderArray arr None depth)).
    assert (Hne : arr <> []) by (intros ->; easy).
    assert (Hprim : forallb isPrimitive arr = false).
    { destruct (forallb isPrimitive arr) eqn:Hall; [| reflexivity].
      rewrite forallb_forall in Hall. now specialize (Hall _ Hin). }
    rewrite renderArray_cards by assumption.
    destruct (mapFrom_In (renderCardOf depth) 0 arr _ Hin) as [index Hcard].
    eapply occurs_trans; [| apply (occurs_cardStack _ _ Hcard)].
    rewrite renderCardOf_object.
    eapply occurs_trans; [apply (IH (depth + 1)) | apply occurs_objectCard].
  - change (occurs text (renderObject obj depth)).
    assert (Hne : obj <> []) by (intros ->; easy).
    rewrite renderObject_entries, fieldStack_filterBoolean by assumption.
    eapply occurs_trans;
      [| apply (occurs_fieldStack _ _ (in_map (renderEntry depth) obj _ Hin))].
    rewrite renderEntry_primitive by easy.
    eapply occurs_trans;
      [apply occurs_renderPrimitive | apply occurs_fieldBlock].
  - change (occurs text (renderObject obj depth)).
    assert (Hne : obj <> []) by (intros ->; easy).
    rewrite renderObject_entries, fieldStack_filterBoolean by assumption.
    eapply occurs_trans;
      [| apply (occurs_fieldStack _ _ (in_map (renderEntry depth) obj _ Hin))].
    destruct v; try discriminate.
    + rewrite renderEntry_array by easy.
      eapply occurs_trans; [apply (IH depth) | apply occurs_fieldBlock].
    + rewrite renderEntry_object by easy.
      eapply occurs_trans; [apply (IH (depth + 1)) | apply occurs_fieldBlock].
Qed.

(** X3.  A string that the value displays is in the assembled document
    as it is, character for character: no markup in it is escaped. *)
Theorem generateHtmlFromData_verbatim
  (data : value) (text : string) (title : option string) (today : string) :
  shown text data ->
  exists document : string,
    generateHtmlFromData data title today = Returns document
    /\ occurs text document.
Proof.
  intros Hshown.
  destruct (reportTitles_returns data (titleOr title)) as [[t u] Htitles].
  unfold generateHtmlFromData. rewrite Htitles. eexists. split; [reflexivity |].
  eapply occurs_trans; [| apply occurs_between].
  assert (Hbody : bodyContent data = renderNode data 0)
    by (destruct Hshown; reflexivity).
  rewrite Hbody. now apply renderNode_shows.
Qed.


(** *** The page header *)

(** X4.  The assembler returns, for every value, the page with the
    heading [titleOf] and the subtitle [subtitleOf]: a title that is not a
    string, hazard details that are not a mapping (an array, say), and
    data that is not a mapping leave the caller's title and no subtitle. *)
Theorem generateHtmlFromData_header
  (data : value) (title : option string) (today : string) :
  generateHtmlFromData data title today
  = Returns (pageHead (titleOf data (titleOr title)) (subtitleOf data)
             ++ bodyContent data ++ pageFoot today).
Proof.
  unfold generateHtmlFromData, reportTitles.
  destruct data as [| | b | n | s | arr | obj]; try reflexivity.
  cbn [isObject readMember bind titleOf subtitleOf].
  destruct (assoc "title" obj) as [[] |];
    destruct (assoc "hazardDetails" obj) as [[| | ? | ? | ? | ? | hazard] |];
    try reflexivity;
    cbn [isNonNullObject isObject isArray orb readMember bind];
    now destruct (assoc "title" hazard) as [[] |].
Qed.

End FurtherProperties.

(** ** The document assembler on a bounded call stack *)

Section StackProperties.

Context {number : Type}.
Variable numberToString : number -> string.
Variable numberIsFinite : number -> bool.

Local Abbreviation value := (value number).
Local Abbreviation stringify := (stringify numberToString numberIsFinite).
Local Abbreviation ensureString := (ensureString numberToString numberIsFinite).
Local Abbreviation renderNode := (renderNode numberToString numberIsFinite).
Local Abbreviation renderArray := (renderArray numberToString numberIsFinite).
Local Abbreviation renderObject := (renderObject numberToString numberIsFinite).
Local Abbreviation bodyContent := (bodyContent numberToString numberIsFinite).
Local Abbreviation stringifyWithin :=
  (stringifyWithin numberToString numberIsFinite).
Local Abbreviation ensureStringWithin :=
  (ensureStringWithin numberToString numberIsFinite).
Local Abbreviation renderNodeWithin :=
  (renderNodeWithin numberToString numberIsFinite).
Local Abbreviation bodyContentWithin :=
  (bodyContentWithin numberToString numberIsFinite).
Local Abbreviation generateHtmlFromDataWithin :=
  (generateHtmlFromDataWithin numberToString numberIsFinite).

Lemma mapThrowing_returns {A B : Type} (f : A -> outcome B) (g : A -> B)
  (l : list A) :
  Forall (fun x => f x = Returns (g x)) l ->
  mapThrowing f l = Returns (map g l).
Proof.
  induction 1 as [| x l Hx _ IH]; [reflexivity |].
  cbn [mapThrowing map]. now rewrite Hx, IH.
Qed.

Lemma mapFromThrowing_returns {A B : Type} (f : A -> nat -> outcome B)
  (g : A -> nat -> B) (start : nat) (l : list A) :
  Forall (fun x => forall index, f x index = Returns (g x index)) l ->
  mapFromThrowing f start l = Returns (mapFrom g start l).
Proof.
  intros H. revert start. induction H as [| x l Hx _ IH]; intros start;
    [reflexivity |].
  cbn [mapFromThrowing mapFrom]. now rewrite Hx, IH.
Qed.

Lemma deepest_bound (levels : list nat) (bound : nat) :
  deepest levels <= bound -> Forall (fun level => level <= bound) levels.
Proof.
  induction levels as [| level levels IH]; [constructor |].
  cbn [deepest fold_right]. fold (deepest levels). intros H.
  constructor; [lia | apply IH; lia].
Qed.

Lemma nesting_elements (items : list value) (bound : nat) :
  deepest (map nesting items) <= bound ->
  Forall (fun item => nesting item <= bound) items.
Proof.
  intros H. apply deepest_bound in H. now rewrite Forall_map in H.
Qed.

Lemma nesting_entries (entries : list (string * value)) (bound : nat) :
  deepest (map (fun entry => nesting (snd entry)) entries) <= bound ->
  Forall (fun entry => nesting (snd entry) <= bound) entries.
Proof.
  intros H. apply deepest_bound in H. now rewrite Forall_map in H.
Qed.

Lemma Forall_both {A : Type} (P Q R : A -> Prop) (l : list A) :
  (forall x, P x -> Q x -> R x) -> Forall P l -> Forall Q l -> Forall R l.
Proof.
  intros H HP. induction HP as [| x l Hx _ IH]; intros HQ; [constructor |].
  inversion HQ; subst. constructor; [now apply H | now apply IH].
Qed.

Lemma stringifyWithin_enough (v : value) :
  forall stack : nat, nesting v <= stack ->
    stringifyWithin stack v = Returns (stringify v).
Proof.
  induction v as [| | b | n | s | items IH | entries IH]
    using value_induction; intros stack Hstack; try reflexivity.
  - cbn [nesting] in Hstack. destruct stack as [| below]; [lia |].
    apply le_S_n, nesting_elements in Hstack.
    cbn [stringifyWithin stringify].
    rewrite (mapThrowing_returns _
               (fun x => match stringify x with
                         | Some t => t
                         | None => "null"
                         end)); [reflexivity |].
    revert IH Hstack. apply Forall_both. intros x IHx Hx.
    now rewrite (IHx below Hx).
  - cbn [nesting] in Hstack. destruct stack as [| below]; [lia |].
    apply le_S_n, nesting_entries in Hstack.
    cbn [stringifyWithin stringify].
    rewrite (mapThrowing_returns _
               (fun e => match stringify (snd e) with
                         | Some t => [quote (fst e) ++ ":" ++ t]
                         | None => []
                         end)).
    + cbn [bind]. now rewrite <- flat_map_concat_map.
    + revert IH Hstack. apply Forall_both. intros e IHe He.
      now rewrite (IHe below He).
Qed.

Lemma ensureStringWithin_enough (v : value) (stack : nat) :
  nesting v <= stack -> ensureStringWithin stack v = Returns (ensureString v).
Proof.
  intros Hstack. unfold ensureStringWithin.
  destruct v; try reflexivity;
    now rewrite (stringifyWithin_enough _ stack Hstack).
Qed.

Lemma renderNodeWithin_enough (v : value) :
  forall stack depth : nat, nesting v <= stack ->
    renderNodeWithin stack v depth = Returns (renderNode v depth).
Proof.
  induction v as [| | b | n | s | arr IH | obj IH] using value_induction;
    intros stack depth Hstack; try reflexivity.
  - cbn [nesting] in Hstack. destruct stack as [| below]; [lia |].
    apply le_S_n, nesting_elements in Hstack.
    cbn [renderNodeWithin renderNode].
    unfold renderArrayBodyWithin, renderArrayBody.
    destruct arr as [| first rest] eqn:Harr; [reflexivity |].
    rewrite <- Harr in *. destruct (forallb isPrimitive arr); [reflexivity |].
    unfold mapIndexed.
    rewrite (mapFromThrowing_returns _
               (renderCard numberToString numberIsFinite renderNode depth));
      [reflexivity |].
    revert IH Hstack. apply Forall_both. intros item IHitem Hitem index.
    unfold renderCardWithin, renderCard.
    destruct (isObject item).
    + now rewrite (IHitem below (depth + 1) Hitem).
    + now rewrite (ensureStringWithin_enough item below Hitem).
  - cbn [nesting] in Hstack. destruct stack as [| below]; [lia |].
    apply le_S_n, nesting_entries in Hstack.
    cbn [renderNodeWithin renderNode].
    unfold renderObjectBodyWithin, renderObjectBody.
    destruct obj as [| first rest] eqn:Hobj; [reflexivity |].
    rewrite <- Hobj in *.
    rewrite (mapThrowing_returns _
               (renderEntryBody numberToString numberIsFinite renderNode
                  depth));
      [reflexivity |].
    revert IH Hstack. apply Forall_both. intros [key v] IHv Hv.
    cbn [snd] in IHv, Hv. unfold renderEntryBodyWithin, renderEntryBody.
    destruct (isReserved key); [reflexivity |].
    destruct (isPrimitive v); [reflexivity |].
    destruct (isArray v); [now rewrite (IHv below depth Hv) |].
    destruct (isObject v); [now rewrite (IHv below (depth + 1) Hv) |].
    reflexivity.
Qed.

Lemma reportTitles_value (data : value) (title : string) :
  reportTitles data title = Returns (titleOf data title, subtitleOf data).
Proof.
  unfold reportTitles.
  destruct data as [| | b | n | s | arr | obj]; try reflexivity.
  cbn [isObject readMember bind titleOf subtitleOf].
  destruct (assoc "title" obj) as [[] |];
    destruct (assoc "hazardDetails" obj) as [[| | ? | ? | ? | ? | hazard] |];
    try reflexivity;
    cbn [isNonNullObject isObject isArray orb readMember bind];
    now destruct (assoc "title" hazard) as [[] |].
Qed.

Lemma nested_object (levels : nat) :
  isPrimitive (nested levels : value) = false
  /\ isArray (nested levels : value) = false
  /\ isObject (nested levels : value) = true.
Proof. now destruct levels. Qed.

(** A mapping nested as many times as the stack allows calls is one
    level too deep: the innermost call throws. *)
Lemma nested_overflows (stack : nat) :
  forall levels depth : nat, stack <= levels ->
    renderNodeWithin stack (nested levels) depth = Throws rangeError.
Proof.
  induction stack as [| below IH]; intros levels depth Hlevels.
  - now destruct levels.
  - destruct levels as [| inner]; [lia |].
    cbn [nested renderNodeWithin renderObjectBodyWithin mapThrowing].
    unfold renderEntryBodyWithin.
    destruct (nested_object inner) as (Hprimitive & Harray & Hobject).
    rewrite Hprimitive, Harray, Hobject. cbn [isReserved String.eqb orb].
    change (isReserved "a") with false. cbv iota.
    rewrite (IH inner (depth + 1)) by lia. reflexivity.
Qed.

Lemma generateHtmlFromDataWithin_overflows
  (stack levels : nat) (title : option string) (today : string) :
  stack <= levels ->
  generateHtmlFromDataWithin stack (nested levels) title today
  = Throws rangeError.
Proof.
  intros Hlevels. unfold generateHtmlFromDataWithin.
  rewrite reportTitles_value. cbn [bind].
  assert (Hbody : bodyContentWithin stack (nested levels)
                  = Throws rangeError).
  { unfold bodyContentWithin.
    destruct levels; now rewrite nested_overflows. }
  now rewrite Hbody.
Qed.



End StackProperties.



(** ** Further properties of the key labels and of highlighting *)

Lemma prefix_split (needle s : string) :
  prefix needle s = true <-> exists rest : string, s = needle ++ rest.
Proof.
  revert s. induction needle as [| c needle IH]; intros s.
  - split; [intros _; now exists s | intros _; now destruct s].
  - destruct s as [| d s].
    + split; [discriminate | intros [rest H]; discriminate].
    + rewrite prefix_cons, andb_true_iff, Ascii.eqb_eq, IH. split.
      * intros [-> [rest ->]]. now exists rest.
      * intros [rest [= -> ->]]. split; [reflexivity | now exists rest].
Qed.

Lemma includes_unfold (s needle : string) :
  Text.includes s needle
  = prefix needle s
    || match s with
       | EmptyString => false
       | String _ r => Text.includes r needle
       end.
Proof. now destruct s. Qed.

Lemma includes_occurs (s needle : string) :
  Text.includes s needle = true <-> occurs needle s.
Proof.
  split.
  - induction s as [| c s IH]; rewrite includes_unfold, orb_true_iff.
    + intros [H | H]; [| discriminate].
      apply prefix_split in H as [rest ->]. now exists "", rest.
    + intros [H | H].
      * apply prefix_split in H as [rest ->]. now exists "", rest.
      * destruct (IH H) as (before & after & ->).
        now exists (String c before), after.
  - intros (before & after & ->).
    induction before as [| c before IH]; rewrite includes_unfold.
    + cbn [append]. now rewrite prefix_app.
    + cbn [append]. now rewrite IH, orb_true_r.
Qed.

Lemma toLowerCase_app (a b : string) :
  Text.toLowerCase (a ++ b) = Text.toLowerCase a ++ Text.toLowerCase b.
Proof. induction a as [| c a IH]; [reflexivity | simpl; now rewrite IH]. Qed.

Lemma lowerChar_cases (c : ascii) :
  Text.lowerChar (Text.upperChar c) = Text.lowerChar c
  /\ Text.lowerChar (Text.lowerChar c) = Text.lowerChar c.
Proof. destruct c as [[] [] [] [] [] [] [] []]; split; reflexivity. Qed.

Lemma toLowerCase_toUpperCase (s : string) :
  Text.toLowerCase (Text.toUpperCase s) = Text.toLowerCase s.
Proof.
  induction s as [| c s IH]; [reflexivity |].
  simpl. now rewrite IH, (proj1 (lowerChar_cases c)).
Qed.

Lemma toLowerCase_idempotent (s : string) :
  Text.toLowerCase (Text.toLowerCase s) = Text.toLowerCase s.
Proof.
  induction s as [| c s IH]; [reflexivity |].
  simpl. now rewrite IH, (proj2 (lowerChar_cases c)).
Qed.

(** X5.  Highlighting does not look at the case of an ASCII key. *)
Theorem isHighlightKey_ignores_case (key : string) :
  asciiText key = true ->
  isHighlightKey (Text.toUpperCase key) = isHighlightKey key
  /\ isHighlightKey (Text.toLowerCase key) = isHighlightKey key.
Proof.
  intros _. unfold isHighlightKey.
  now rewrite toLowerCase_toUpperCase, toLowerCase_idempotent.
Qed.

(** X6.  A key that holds a highlighted key anywhere inside is
    highlighted too. *)
Theorem isHighlightKey_extends (key before after : string) :
  isHighlightKey key = true ->
  isHighlightKey (before ++ key ++ after) = true.
Proof.
  unfold isHighlightKey. rewrite !existsb_exists.
  intros (word & Hin & Hword). exists word. split; [exact Hin |].
  apply includes_occurs. apply includes_occurs in Hword.
  rewrite !toLowerCase_app.
  eapply occurs_trans; [exact Hword |].
  now exists (Text.toLowerCase before), (Text.toLowerCase after).
Qed.

Lemma includes_part (s needle part : string) :
  occurs part needle -> Text.includes s needle = true ->
  Text.includes s part = true.
Proof.
  intros Hpart H. apply includes_occurs. apply includes_occurs in H.
  eapply occurs_trans; eassumption.
Qed.

(** X7.  The two longest highlight keys add nothing: a key is
    highlighted exactly when its lower-case form holds one of the eight
    words title, description, hazard, action, risk, severity, category,
    location. *)
Theorem isHighlightKey_eight_words (key : string) :
  isHighlightKey key
  = existsb (Text.includes (Text.toLowerCase key))
      [ "title"; "description"; "hazard"; "action"; "risk"; "severity";
        "category"; "location" ].
Proof.
  unfold isHighlightKey. cbn [existsb highlightKeys].
  change (Text.toLowerCase "immediateAction") with "immediateaction".
  change (Text.toLowerCase "riskRating") with "riskrating".
  repeat match goal with
         | |- context [Text.toLowerCase (String ?c ?r)] =>
             let t := eval vm_compute in (Text.toLowerCase (String c r)) in
             change (Text.toLowerCase (String c r)) with t
         end.
  set (s := Text.toLowerCase key).
  destruct (Text.includes s "immediateaction") eqn:Himmediate.
  - rewrite (includes_part s "immediateaction" "action") by
      (assumption || now exists "immediate", "").
    now rewrite !orb_true_r.
  - destruct (Text.includes s "riskrating") eqn:Hrating.
    + rewrite (includes_part s "riskrating" "risk") by
        (assumption || now exists "", "rating").
      now rewrite !orb_true_r.
    + now rewrite !orb_false_r.
Qed.

(** *** Labels *)

Lemma assoc_forallb {A : Type} (p : A -> bool) (key : string)
  (entries : list (string * A)) (a : A) :
  forallb (fun entry => p (snd entry)) entries = true ->
  assoc key entries = Some a -> p a = true.
Proof.
  intros Hall H. destruct (assoc_split key entries a H) as (front & back & ->).
  rewrite forallb_app in Hall. apply andb_true_iff in Hall as [_ Hall].
  cbn [forallb snd] in Hall. now apply andb_true_iff in Hall as [Ha _].
Qed.

Lemma inTable_In (key : string) (names : list string) :
  inTable key names = true -> In key names.
Proof.
  unfold inTable. rewrite existsb_exists.
  intros (name & Hin & Heq). apply String.eqb_eq in Heq. now subst.
Qed.

(** X8.  Outside the names of the members of [Object.prototype], an
    ASCII key of the table maps to its entry and any other ASCII key to
    its title-cased form: a space before every capital but a leading one,
    the first character in upper case, surrounding white space trimmed. *)
Theorem formatKeyName_outside_prototype (key : string) :
  asciiText key = true ->
  inTable key objectPrototype = false ->
  formatKeyName key
  = Own (match assoc key specialCases with
         | Some label => label
         | None => titleCaseSpec key
         end).
Proof.
  intros _ Hproto. destruct (assoc key specialCases) as [label |] eqn:Hkey.
  - now apply formatKeyName_special.
  - now apply formatKeyName_generic.
Qed.

(** X9.  No label has white space at either end, whatever the key. *)
Theorem formatKeyName_trimmed (key : string) :
  Text.trim (interpolate (formatKeyName key)) = interpolate (formatKeyName key).
Proof.
  unfold formatKeyName, readSpecialCase.
  destruct (assoc key specialCases) as [label |] eqn:Hkey.
  - assert (Htruthy : Text.truthy label = true)
      by (now apply (assoc_forallb Text.truthy key specialCases)).
    cbn [slotTruthy]. rewrite Htruthy. cbn [interpolate].
    apply String.eqb_eq.
    now apply (assoc_forallb (fun l => String.eqb (Text.trim l) l)
                 key specialCases).
  - destruct (inTable key objectPrototype) eqn:Hproto.
    + cbn [slotTruthy]. apply inTable_In in Hproto.
      cbn [objectPrototype In] in Hproto.
      repeat (destruct Hproto as [<- | Hproto]; [reflexivity |]).
      contradiction.
    + cbn [interpolate]. apply trim_idempotent.
Qed.

Lemma plain_char (c : ascii) :
  negb (Text.isUpperAZ c) && negb (Text.isWhiteSpace c) = true ->
  Text.isUpperAZ c = false
  /\ Text.isLineTerminator c = false
  /\ Text.isWhiteSpace c = false
  /\ Text.isWhiteSpace (Text.upperChar c) = false.
Proof.
  destruct c as [[] [] [] [] [] [] [] []]; vm_compute; intros H;
    try discriminate H; repeat split.
Qed.

Lemma spaceBeforeCapitals_plain (key : string) :
  plainKey key = true -> spaceBeforeCapitals key = key.
Proof.
  induction key as [| c key IH]; [reflexivity |].
  unfold plainKey in *. cbn [allChars]. rewrite andb_true_iff.
  intros [Hc Hkey]. destruct (plain_char c Hc) as (Hupper & _).
  cbn [spaceBeforeCapitals]. now rewrite Hupper, IH.
Qed.

Lemma trimEnd_solid (s : string) :
  allChars (fun c => negb (Text.isWhiteSpace c)) s = true ->
  Text.trimEnd s = s.
Proof.
  induction s as [| c s IH]; [reflexivity |].
  cbn [allChars]. rewrite andb_true_iff, negb_true_iff. intros [Hc Hs].
  rewrite trimEnd_cons, (IH Hs), Hc. now destruct s.
Qed.

Lemma plainKey_solid (key : string) :
  plainKey key = true ->
  allChars (fun c => negb (Text.isWhiteSpace c)) key = true.
Proof.
  induction key as [| c key IH]; [reflexivity |].
  unfold plainKey in *. cbn [allChars]. intros H.
  apply andb_true_iff in H as [Hc Hkey].
  destruct (plain_char c Hc) as (_ & _ & Hspace & _).
  now rewrite Hspace, (IH Hkey).
Qed.

(** X10.  An ASCII key without capitals and without white space (a
    lower-case or snake_case key) that is in neither table is only
    capitalized: its label is the key with the first character in upper
    case. *)
Theorem formatKeyName_plain (key : string) :
  asciiText key = true ->
  plainKey key = true ->
  assoc key specialCases = None ->
  inTable key objectPrototype = false ->
  formatKeyName key = Own (upperFirst key).
Proof.
  intros _ Hplain Hmiss Hproto.
  unfold formatKeyName, readSpecialCase. rewrite Hmiss, Hproto. f_equal.
  unfold titleCase. rewrite (spaceBeforeCapitals_plain key Hplain).
  destruct key as [| c key]; [reflexivity |].
  pose proof (plainKey_solid _ Hplain) as Hsolid.
  unfold plainKey in Hplain. cbn [allChars] in Hplain, Hsolid.
  apply andb_true_iff in Hplain as [Hc _].
  apply andb_true_iff in Hsolid as [_ Hrest].
  destruct (plain_char c Hc) as (_ & Hline & _ & Hup).
  cbn [capitalizeFirst upperFirst Text.toUpperCase append]. rewrite Hline.
  unfold Text.trim. cbn [Text.trimStart]. rewrite Hup.
  apply trimEnd_solid. cbn [allChars]. now rewrite Hup, Hrest.
Qed.

(** ** Further properties of the code-fence stripping *)

(** *** What a match of the pattern says about the text *)

Lemma matchPieces_literal_sound (text : string) (rest : list piece)
  (s captured group : string) :
  matchPieces (Literal text :: rest) s captured = Some group ->
  exists s' : string,
    s = text ++ s' /\ matchPieces rest s' captured = Some group.
Proof.
  rewrite matchPieces_literal. destruct (prefix text s) eqn:Hprefix;
    [| discriminate].
  apply prefix_split in Hprefix as [s' ->]. rewrite skip_app.
  intros H. now exists s'.
Qed.

Lemma matchPieces_greedy_sound (class : ascii -> bool) (rest : list piece)
  (s captured group : string) :
  matchPieces (Greedy class :: rest) s captured = Some group ->
  exists run s' : string,
    s = run ++ s' /\ allChars class run = true
    /\ matchPieces rest s' captured = Some group.
Proof.
  induction s as [| c s IH]; rewrite matchPieces_greedy.
  - intros H. now exists "", "".
  - destruct (class c) eqn:Hc; [| intros H; now exists "", (String c s)].
    destruct (matchPieces (Greedy class :: rest) s captured) eqn:Hmore.
    + cbn [orElse]. intros [= ->].
      destruct (IH eq_refl) as (run & s' & -> & Hrun & Hrest).
      exists (String c run), s'. cbn [allChars append]. now rewrite Hc, Hrun.
    + cbn [orElse]. intros H. now exists "", (String c s).
Qed.

Lemma matchPieces_lazy_sound (class : ascii -> bool) (rest : list piece)
  (s captured group : string) :
  matchPieces (LazyGroup class :: rest) s captured = Some group ->
  exists taken s' : string,
    s = taken ++ s'
    /\ matchPieces rest s' (captured ++ taken) = Some group
    /\ (forall a b : string, taken = a ++ b -> b <> "" ->
          matchPieces rest (b ++ s') (captured ++ a) = None).
Proof.
  assert (Hnone : forall a b : string, "" = a ++ b -> b <> "" -> False).
  { intros [| x a] b Hab Hb; [| discriminate]. cbn [append] in Hab.
    congruence. }
  revert captured. induction s as [| c s IH]; intros captured;
    rewrite matchPieces_lazy;
    destruct (matchPieces rest _ captured) eqn:Hhere; cbn [orElse].
  - intros [= ->]. exists "", "". rewrite (append_empty_r captured).
    split; [reflexivity | split; [assumption |]].
    intros a b Hab Hb. now destruct (Hnone a b Hab Hb).
  - discriminate.
  - intros [= ->]. exists "", (String c s). rewrite (append_empty_r captured).
    split; [reflexivity | split; [assumption |]].
    intros a b Hab Hb. now destruct (Hnone a b Hab Hb).
  - destruct (class c); [| discriminate]. intros H.
    destruct (IH _ H) as (taken & s' & -> & Hrest & Hshort).
    exists (String c taken), s'.
    rewrite append_assoc in Hrest. cbn [append] in Hrest.
    split; [reflexivity | split; [assumption |]].
    intros [| x a] b Hab Hb; cbn [append] in Hab.
    + subst b. now rewrite append_empty_r.
    + injection Hab as <- ->.
      specialize (Hshort a b eq_refl Hb).
      now rewrite append_assoc in Hshort.
Qed.

Lemma matchFirst_sound (pattern : list piece) (s group : string) :
  matchFirst pattern s = Some group ->
  exists before s' : string,
    s = before ++ s' /\ matchPieces pattern s' "" = Some group.
Proof.
  induction s as [| c s IH]; cbn [matchFirst];
    destruct (matchPieces pattern _ "") eqn:Hhere; cbn [orElse];
    try discriminate.
  - intros [= ->]. now exists "", "".
  - intros [= ->]. now exists "", (String c s).
  - intros H. destruct (IH H) as (before & s' & -> & Hs').
    now exists (String c before), s'.
Qed.

Lemma closes_fence (s : string) : closes (fence ++ s) = true.
Proof.
  unfold closes. rewrite (headSolid_trimStart (fence ++ s)) by reflexivity.
  apply prefix_app.
Qed.

(** A match of the fence pattern: the text holds an opening fence, white
    space, the group, white space and a fence, and no fence starts inside
    the group. *)
Lemma fencePattern_sound (s group : string) :
  matchFirst fencePattern s = Some group ->
  exists before leading trailing after : string,
    s = before ++ openingFence ++ leading ++ group ++ trailing
        ++ fence ++ after
    /\ allChars Text.isWhiteSpace leading = true
    /\ allChars Text.isWhiteSpace trailing = true
    /\ Text.includes group fence = false.
Proof.
  intros H. apply matchFirst_sound in H as (before & s1 & -> & H).
  unfold fencePattern in H.
  apply matchPieces_literal_sound in H as (s2 & -> & H).
  apply matchPieces_greedy_sound in H as (leading & s3 & -> & Hleading & H).
  apply matchPieces_lazy_sound in H as (taken & s4 & -> & H & Hshort).
  cbn [append] in H.
  assert (Hgroup : group = taken).
  { rewrite closing_match in H. now destruct (closes s4); [injection H |]. }
  subst taken.
  apply matchPieces_greedy_sound in H as (trailing & s5 & -> & Htrailing & H).
  apply matchPieces_literal_sound in H as (after & -> & _).
  exists before, leading, trailing, after. repeat split; try assumption.
  destruct (Text.includes group fence) eqn:Hinside; [| reflexivity].
  apply includes_occurs in Hinside as (a & b & Hab).
  specialize (Hshort a (fence ++ b) Hab ltac:(discriminate)).
  rewrite closing_match, append_assoc, closes_fence in Hshort. discriminate.
Qed.

Lemma occurs_trim (s : string) : occurs (Text.trim s) s.
Proof.
  destruct (trimStart_suffix s) as [leading Hleading].
  destruct (trimEnd_tail (Text.trimStart s)) as (trailing & Htrailing & _).
  exists leading, trailing. fold (Text.trim s) in Htrailing.
  now rewrite <- Htrailing.
Qed.

Lemma stripCodeFence_cases (s : string) :
  stripCodeFence s = s
  \/ exists group : string,
       matchFirst fencePattern s = Some group /\ group <> ""
       /\ stripCodeFence s = Text.trim group.
Proof.
  unfold stripCodeFence.
  destruct (Text.truthy s && Text.includes s openingFence); [| now left].
  destruct (matchFirst fencePattern s) as [group |]; [| now left].
  destruct group as [| c group]; [now left |].
  right. exists (String c group). repeat split. discriminate.
Qed.

(** X11.  When the stripping step changes a text whose white space is
    the ASCII one, the text holds a fenced block - an opening fence, white
    space, a group that is not empty and holds no fence, white space, a
    fence - and the result is that group, trimmed. *)
Theorem stripCodeFence_sound (s : string) :
  asciiSpaced s = true ->
  stripCodeFence s <> s ->
  exists before leading group trailing after : string,
    s = before ++ openingFence ++ leading ++ group ++ trailing
        ++ fence ++ after
    /\ allChars Text.isWhiteSpace leading = true
    /\ allChars Text.isWhiteSpace trailing = true
    /\ group <> ""
    /\ Text.includes group fence = false
    /\ stripCodeFence s = Text.trim group.
Proof.
  intros _ Hchanged.
  destruct (stripCodeFence_cases s) as [Hsame | (group & Hmatch & Hgroup & Hs)];
    [contradiction |].
  destruct (fencePattern_sound s group Hmatch)
    as (before & leading & trailing & after & Hsplit & Hl & Ht & Hfree).
  now exists before, leading, group, trailing, after.
Qed.

(** X12.  The result of the stripping step is a contiguous part of its
    text: the step only ever removes from the two ends. *)
Theorem stripCodeFence_part (s : string) : occurs (stripCodeFence s) s.
Proof.
  destruct (stripCodeFence_cases s) as [-> | (group & Hmatch & _ & ->)];
    [apply occurs_refl |].
  eapply occurs_trans; [apply occurs_trim |].
  destruct (fencePattern_sound s group Hmatch)
    as (before & leading & trailing & after & -> & _).
  exists (before ++ openingFence ++ leading), (trailing ++ fence ++ after).
  now rewrite !append_assoc.
Qed.

(** X13.  The stripping step is idempotent: its result holds no opening
    fence, so a second pass leaves it as it is. *)
Theorem stripCodeFence_idempotent (s : string) :
  stripCodeFence (stripCodeFence s) = stripCodeFence s.
Proof.
  destruct (stripCodeFence_cases s) as [Hsame | (group & Hmatch & _ & ->)];
    [now rewrite !Hsame |].
  destruct (fencePattern_sound s group Hmatch)
    as (_ & _ & _ & _ & _ & _ & _ & Hfree).
  unfold stripCodeFence at 1.
  destruct (Text.includes (Text.trim group) openingFence) eqn:Hopening;
    [| now rewrite andb_false_r].
  exfalso. apply includes_occurs in Hopening.
  assert (Hfence : occurs fence group).
  { eapply occurs_trans; [| apply occurs_trim].
    eapply occurs_trans; [| exact Hopening]. now exists "", "html". }
  apply includes_occurs in Hfence. congruence.
Qed.

(** ** Properties of the typed report and of the response handling *)

Section TypedReport.

Context {number : Type}.
Variable numberToString : number -> string.

Local Abbreviation value := (value number).
Local Abbreviation toText := (toText numberToString).
Local Abbreviation interpolated := (interpolated numberToString).
Local Abbreviation actionItems := (actionItems numberToString).
Local Abbreviation generateHtmlReport := (generateHtmlReport numberToString).
Local Abbreviation readResponse := (readResponse numberToString).

Lemma member_entry (obj : list (string * value)) (name : string) (v : value) :
  assoc name obj = Some v -> member (VObj obj) name = Returns v.
Proof. intros H. unfold member. cbn [readMember]. now rewrite H. Qed.

Lemma member_text (obj : list (string * value)) (name : string) :
  textField obj name = true ->
  member (VObj obj) name = Returns (VStr (textOf obj name)).
Proof.
  unfold textField, textOf, member. cbn [readMember].
  destruct (assoc name obj) as [[] |]; try discriminate. reflexivity.
Qed.

Lemma interpolated_text (data : value) (obj : list (string * value))
  (section field : string) :
  member data section = Returns (VObj obj) ->
  textField obj field = true ->
  interpolated data section field = Returns (textOf obj field).
Proof.
  intros Hsection Hfield. unfold interpolated.
  rewrite Hsection. cbn [bind]. now rewrite (member_text obj field Hfield).
Qed.

Lemma mapThrowing_texts (items : list value) :
  forallb isText items = true ->
  mapThrowing (fun action => bind (toText action)
                               (fun t => Returns (actionItem t))) items
  = Returns (map actionItem (map textOfValue items)).
Proof.
  induction items as [| item items IH]; [reflexivity |].
  cbn [forallb]. rewrite andb_true_iff. intros [Hitem Hitems].
  destruct item; try discriminate. cbn [mapThrowing toText bind].
  now rewrite (IH Hitems).
Qed.

Lemma actionItems_texts (obj : list (string * value)) (name : string) :
  textList obj name = true ->
  exists action : value,
    member (VObj obj) name = Returns action
    /\ actionItems action
       = Returns (Text.join (map actionItem (textsOf obj name))).
Proof.
  unfold textList, textsOf, member. cbn [readMember].
  destruct (assoc name obj) as [[| | | | | items |] |]; try discriminate.
  intros Htexts. exists (VArr items). split; [reflexivity |].
  unfold actionItems. now rewrite (mapThrowing_texts items Htexts).
Qed.

(** X14.  On structured data whose four sections are mappings and whose
    fields read by the report have their declared types - strings, and
    lists of strings for the two action lists - the typed report returns
    the template filled with those strings, the risk badge showing the
    risk rating up to its first space. *)
Theorem generateHtmlReport_conforming
  (data hazard information corrective preventive : list (string * value))
  (today : string) :
  assoc "hazardDetails" data = Some (VObj hazard) ->
  assoc "additionalInformation" data = Some (VObj information) ->
  assoc "correctiveActions" data = Some (VObj corrective) ->
  assoc "preventiveActions" data = Some (VObj preventive) ->
  forallb (textField hazard)
    [ "title"; "riskRating"; "reportDate"; "hazardId"; "location";
      "category"; "description"; "immediateAction" ] = true ->
  forallb (textField information)
    [ "rootCauseAnalysis"; "riskAssessment"; "complianceReferences" ]
  = true ->
  forallb (textField corrective) [ "responsiblePerson"; "timeline" ] = true ->
  textList corrective "action" = true ->
  textList preventive "action" = true ->
  generateHtmlReport (VObj data) today
  = Returns
      (capaReportMarkup
         (textOf hazard "title")
         (firstSegment (textOf hazard "riskRating"))
         (textOf hazard "reportDate") (textOf hazard "hazardId")
         (textOf hazard "location") (textOf hazard "category")
         (textOf hazard "description") (textOf hazard "immediateAction")
         (textOf information "rootCauseAnalysis")
         (Text.join (map actionItem (textsOf corrective "action")))
         (textOf corrective "responsiblePerson")
         (textOf corrective "timeline")
         (Text.join (map actionItem (textsOf preventive "action")))
         (textOf information "riskAssessment")
         (textOf information "complianceReferences")
         today).
Proof.
  intros Hh Hi Hc Hp Hhazard Hinformation Hcorrective Hca Hpa.
  apply member_entry in Hh, Hi, Hc, Hp.
  cbn [forallb] in Hhazard, Hinformation, Hcorrective.
  repeat match goal with
         | H : _ && _ = true |- _ => apply andb_true_iff in H as [? H]
         end.
  destruct (actionItems_texts corrective "action" Hca) as (ca & Hcam & Hcai).
  destruct (actionItems_texts preventive "action" Hpa) as (pa & Hpam & Hpai).
  unfold generateHtmlReport.
  rewrite !(interpolated_text _ hazard "hazardDetails") by assumption.
  rewrite !(interpolated_text _ information "additionalInformation")
    by assumption.
  rewrite !(interpolated_text _ corrective "correctiveActions") by assumption.
  rewrite Hh, Hc, Hp. cbn [bind].
  rewrite (member_text hazard "riskRating") by assumption.
  rewrite Hcam, Hpam. cbn [bind firstWord]. rewrite Hcai, Hpai.
  reflexivity.
Qed.

(** Follows a computation step by step to the step that throws: a step
    that is already known to throw ends the search, any other step either
    throws or goes on. *)
Ltac throws_along :=
  repeat (cbn [bind readMember];
          match goal with
          | |- exists error, Throws _ = Throws error =>
              eexists; reflexivity
          | |- exists error, bind ?m _ = Throws error =>
              destruct m
          end).

(** X15.  The typed report throws when one of its four sections is
    missing from the data or is [null]. *)
Theorem generateHtmlReport_missing_section
  (data : list (string * value)) (section : string) (today : string) :
  In section [ "hazardDetails"; "additionalInformation";
               "correctiveActions"; "preventiveActions" ] ->
  assoc section data = None \/ assoc section data = Some VNull ->
  exists error : string, generateHtmlReport (VObj data) today = Throws error.
Proof.
  intros Hsection Habsent.
  unfold generateHtmlReport, interpolated, member.
  destruct Hsection as [<- | [<- | [<- | [<- | []]]]];
    destruct Habsent as [H | H]; cbn [readMember bind]; rewrite !H;
    throws_along.
Qed.

Lemma firstWord_throws (v : value) :
  isText v = false -> exists error : string, firstWord v = Throws error.
Proof. destruct v; try discriminate; intros _; eexists; reflexivity. Qed.

Lemma actionItems_throws (v : value) :
  isArray v = false -> exists error : string, actionItems v = Throws error.
Proof. destruct v; try discriminate; intros _; eexists; reflexivity. Qed.

(** X16.  The typed report throws when the risk rating is not a string,
    and when the action list of the corrective or of the preventive
    actions is not an array. *)
Theorem generateHtmlReport_wrong_type
  (data : list (string * value)) (today : string) :
  (forall hazard : list (string * value),
     assoc "hazardDetails" data = Some (VObj hazard) ->
     textField hazard "riskRating" = false ->
     exists error : string,
       generateHtmlReport (VObj data) today = Throws error)
  /\ (forall (section : string) (actions : list (string * value)),
        section = "correctiveActions" \/ section = "preventiveActions" ->
        assoc section data = Some (VObj actions) ->
        listField actions "action" = false ->
        exists error : string,
          generateHtmlReport (VObj data) today = Throws error).
Proof.
  split.
  - intros hazard Hhazard Hrating.
    assert (Hword : exists error : string,
               firstWord match assoc "riskRating" hazard with
                         | Some found => found
                         | None => VUndefined
                         end = Throws error).
    { apply firstWord_throws. unfold textField in Hrating.
      now destruct (assoc "riskRating" hazard). }
    destruct Hword as [error Hword].
    unfold generateHtmlReport, interpolated, member.
    cbn [readMember bind]. rewrite !Hhazard. cbn [readMember bind].
    rewrite Hword. throws_along.
  - intros section actions Hsection Hactions Hlist.
    assert (Hitems : exists error : string,
               actionItems match assoc "action" actions with
                           | Some found => found
                           | None => VUndefined
                           end = Throws error).
    { apply actionItems_throws. unfold listField in Hlist.
      now destruct (assoc "action" actions). }
    destruct Hitems as [error Hitems].
    unfold generateHtmlReport, interpolated, member.
    destruct Hsection as [-> | ->]; cbn [readMember bind];
      rewrite !Hactions; cbn [readMember bind]; rewrite Hitems;
      throws_along.
Qed.

(** *** The response *)

Lemma extractHtml_stripCodeFence (htmlContent : string) :
  extractHtml htmlContent = stripCodeFence htmlContent.
Proof.
  unfold extractHtml, stripCodeFence.
  destruct htmlContent as [| c r]; [reflexivity |]. reflexivity.
Qed.

(** X17.  What becomes of a response that is a mapping, by its
    [html_data]: a string is stored with its fence stripped; a mapping is
    rendered by the typed report; an array is taken for structured data
    too, and the rendering throws; anything else, also a missing
    [html_data], leaves the empty markup.  The message is passed on as it
    is. *)
Theorem readResponse_cases
  (rawData : list (string * value)) (today : string) :
  let message :=
    match assoc "message" rawData with
    | Some found => found
    | None => VUndefined
    end in
  match assoc "html_data" rawData with
  | Some (VStr htmlContent) =>
      readResponse (VObj rawData) today
      = Returns (message, stripCodeFence htmlContent)
  | Some (VObj data) =>
      readResponse (VObj rawData) today
      = bind (generateHtmlReport (VObj data) today)
             (fun htmlContent => Returns (message, htmlContent))
  | Some (VArr items) =>
      exists error : string,
        readResponse (VObj rawData) today = Throws error
  | _ => readResponse (VObj rawData) today = Returns (message, "")
  end.
Proof.
  intros message. unfold readResponse, member. cbn [readMember bind].
  destruct (assoc "html_data" rawData) as [[| | b | n | s | items | data] |];
    try reflexivity.
  - cbn [isNonNullObject isObject isArray orb].
    now rewrite extractHtml_stripCodeFence.
  - cbn [isNonNullObject isObject isArray orb].
    unfold generateHtmlReport, interpolated, member. throws_along.
Qed.

End TypedReport.

(** ** The simulated progress *)

(** X18.  From 0, the simulated progress after n ticks of the timer is
    10 n, capped at 90, and the timer is running up to the ninth tick:
    the progress never goes beyond 90, and the tenth tick stops the
    timer. *)
Theorem ticks_progress (n : nat) :
  ticks n {| progress := 0; ticking := true |}
  = {| progress := Nat.min (10 * n) 90; ticking := Nat.leb n 9 |}.
Proof.
  induction n as [| n IH]; [reflexivity |].
  cbn [ticks]. rewrite IH. unfold progressTick. cbn [progress ticking].
  destruct (Nat.leb_spec n 9) as [Hn | Hn].
  - destruct (Nat.leb_spec 90 (Nat.min (10 * n) 90)) as [Hfull | Hless].
    + assert (n = 9) as -> by lia. reflexivity.
    + assert (Hn' : n < 9) by lia.
      destruct (Nat.leb_spec (S n) 9) as [_ | Hbad]; [| lia].
      f_equal. lia.
  - destruct (Nat.leb_spec (S n) 9) as [Hbad | _]; [lia |].
    f_equal. lia.
Qed.

(** ** The further properties at concrete inputs *)

(** A mapping with a card stack inside, at the depths 1 and 3. *)
Lemma render_depth_beyond_top_witness :
  0 < 1 /\ 0 < 3
  /\ renderObject natToString natIsFinite
       [("items", VArr [VObj [("n", VNum 1)]])] 1
     = renderObject natToString natIsFinite
         [("items", VArr [VObj [("n", VNum 1)]])] 3.
Proof.
  split; [lia | split; [lia |]].
  apply (render_depth_beyond_top natToString natIsFinite 1 3); lia.
Defined.

(** A sequence of a string and a number. *)
Lemma renderArray_bulleted_list_witness :
  forallb isPrimitive [VStr "a"; (VNum 2 : value nat)] = true
  /\ renderArray natToString natIsFinite [VStr "a"; VNum 2] None 0
     = renderArray natToString natIsFinite [VStr "a"; VNum 2]
         (Some "steps") 4.
Proof.
  split; [reflexivity |].
  apply (renderArray_bulleted_list natToString natIsFinite
           [VStr "a"; VNum 2] None (Some "steps") 0 4);
    [discriminate | reflexivity].
Defined.

(** Markup in a field of a mapping reaches the document as it is. *)
Lemma generateHtmlFromData_verbatim_witness :
  shown "<b>now</b>" (VObj [("notes", (VStr "<b>now</b>" : value nat))])
  /\ exists document : string,
       generateHtmlFromData natToString natIsFinite
         (VObj [("notes", VStr "<b>now</b>")]) None "11/3/2026"
       = Returns document
       /\ occurs "<b>now</b>" document.
Proof.
  assert (H : shown "<b>now</b>"
                (VObj [("notes", (VStr "<b>now</b>" : value nat))]))
    by (apply (shown_field _ _ "notes"); [reflexivity | now left]).
  split; [exact H |].
  exact (generateHtmlFromData_verbatim natToString natIsFinite
           _ _ None "11/3/2026" H).
Defined.

(** A key around the word risk. *)
Lemma isHighlightKey_extends_witness :
  isHighlightKey "risk" = true /\ isHighlightKey "overallRiskScore" = true.
Proof.
  split; [reflexivity |].
  apply (isHighlightKey_extends "Risk" "overall" "Score"). reflexivity.
Defined.

(** A key of the table and a key outside it. *)
Lemma formatKeyName_outside_prototype_witness :
  asciiText "rootCause" = true
  /\ inTable "rootCause" objectPrototype = false
  /\ formatKeyName "rootCause" = Own "Root Cause".
Proof.
  split; [reflexivity |]. split; [reflexivity |].
  apply (formatKeyName_outside_prototype "rootCause"); reflexivity.
Defined.

(** A snake_case key of the bounding box. *)
Lemma formatKeyName_plain_witness :
  asciiText "x_min" = true
  /\ plainKey "x_min" = true /\ formatKeyName "x_min" = Own "X_min".
Proof.
  split; [reflexivity |]. split; [reflexivity |].
  apply (formatKeyName_plain "x_min"); reflexivity.
Defined.

(** The key of the risk rating, in capitals and in small letters. *)
Lemma isHighlightKey_ignores_case_witness :
  asciiText "riskRating" = true
  /\ isHighlightKey "RISKRATING" = isHighlightKey "riskRating"
  /\ isHighlightKey "riskrating" = isHighlightKey "riskRating".
Proof.
  split; [reflexivity |].
  apply (isHighlightKey_ignores_case "riskRating"). reflexivity.
Defined.

(** The fenced string of the specification is changed by the step. *)
Lemma stripCodeFence_sound_witness :
  asciiSpaced "```html<div>X</div>```" = true
  /\ stripCodeFence "```html<div>X</div>```" <> "```html<div>X</div>```"
  /\ exists before leading group trailing after : string,
       "```html<div>X</div>```"
       = before ++ openingFence ++ leading ++ group ++ trailing
         ++ fence ++ after
       /\ allChars Text.isWhiteSpace leading = true
       /\ allChars Text.isWhiteSpace trailing = true
       /\ group <> ""
       /\ Text.includes group fence = false
       /\ stripCodeFence "```html<div>X</div>```" = Text.trim group.
Proof.
  assert (H : stripCodeFence "```html<div>X</div>```"
              <> "```html<div>X</div>```") by (vm_compute; discriminate).
  split; [reflexivity |]. split; [exact H |].
  exact (stripCodeFence_sound "```html<div>X</div>```" eq_refl H).
Defined.

(** Structured data of the declared shape. *)
Lemma generateHtmlReport_conforming_witness :
  textList sampleCorrective "action" = true
  /\ generateHtmlReport natToString (VObj sampleData) "11/3/2026"
     = Returns
         (capaReportMarkup "No helmet" "High" "2025-01-01" "HZ-1" "Bay 3"
            "PPE" "Worker without helmet" "Stop work" "No supervision"
            (actionItem "Issue helmets" ++ actionItem "Brief the crew")
            "Site lead" "1 day" (actionItem "Weekly audit") "Head injury"
            "OSHA 1910.135" "11/3/2026").
Proof.
  split; [reflexivity |].
  apply (generateHtmlReport_conforming natToString sampleData sampleHazard
           sampleInformation sampleCorrective samplePreventive "11/3/2026");
    reflexivity.
Defined.

(** The same data without its preventive actions. *)
Lemma generateHtmlReport_missing_section_witness :
  assoc "preventiveActions"
    [ ("hazardDetails", VObj sampleHazard);
      ("correctiveActions", VObj sampleCorrective);
      ("additionalInformation", VObj sampleInformation) ] = None
  /\ exists error : string,
       generateHtmlReport natToString
         (VObj [ ("hazardDetails", VObj sampleHazard);
                 ("correctiveActions", VObj sampleCorrective);
                 ("additionalInformation", VObj sampleInformation) ])
         "11/3/2026"
       = Throws error.
Proof.
  split; [reflexivity |].
  apply (generateHtmlReport_missing_section natToString _
           "preventiveActions" "11/3/2026");
    [simpl; tauto | left; reflexivity].
Defined.

(** A risk rating given as a number. *)
Lemma generateHtmlReport_wrong_type_witness :
  textField [("title", VStr "t"); ("riskRating", (VNum 12 : value nat))]
    "riskRating" = false
  /\ exists error : string,
       generateHtmlReport natToString
         (VObj [("hazardDetails",
                 VObj [("title", VStr "t"); ("riskRating", VNum 12)])])
         "11/3/2026"
       = Throws error.
Proof.
  split; [reflexivity |].
  apply (proj1 (generateHtmlReport_wrong_type natToString
                  [("hazardDetails",
                    VObj [("title", VStr "t"); ("riskRating", VNum 12)])]
                  "11/3/2026")
           [("title", VStr "t"); ("riskRating", VNum 12)]);
    reflexivity.
Defined.
